(** * The weather service and its response cache

    A shallow embedding of [services/weather_api.py] (class [WeatherAPI]) and of
    the cache settings of [config/settings.py], together with the properties of
    the time-bounded response cache that the service keeps in [self._cache].

    Conventions of the embedding.
    - A Python [str] is a Rocq [string]; each [ascii] stands for the code point
      of the same number (U+0000 to U+00FF).
    - A Python [float] is a binary64 value of [SpecFloat.spec_float] (one that
      [valid_binary 53 1024] accepts).
    - A [datetime] is a number of microseconds (its resolution) on the local
      wall clock; a [timedelta] is a difference of two of them.
    - The instance attribute [self._cache] is a finite map from keys to entries.
    - Methods are computations in a small monad that threads the instance, the
      readings of the clock and a log of the calls made, and that can raise.
    - Dictionaries are values: the callers of the service only read the
      dictionary they are handed, which is the one the cache holds. *)

From Stdlib Require Import ZArith NArith QArith Qround Ascii String List Bool Lia.
From Stdlib Require Import SpecFloat DecimalString.
From stdpp Require Import gmap strings list fin_maps.

Local Open Scope Z_scope.
Local Open Scope string_scope.

(** ** Python text *)

Module PyStr.

Definition code (c : ascii) : N := N_of_ascii c.

Definition between (lo hi n : N) : bool := (N.leb lo n && N.leb n hi)%bool.

(** [str.isspace] for one character. *)
Definition isspace (c : ascii) : bool :=
  let n := code c in
  (between 9 13 n || between 28 32 n || N.eqb n 133 || N.eqb n 160)%bool.

(** Characters that have a lower-case partner 32 places further on:
    A-Z and the accented capitals U+00C0..U+00DE without the sign U+00D7. *)
Definition isupper (c : ascii) : bool :=
  let n := code c in
  (between 65 90 n || (between 192 222 n && negb (N.eqb n 215)))%bool.

(** Their partners: a-z and U+00E0..U+00FE without the sign U+00F7. *)
Definition has_upper (c : ascii) : bool :=
  let n := code c in
  (between 97 122 n || (between 224 254 n && negb (N.eqb n 247)))%bool.

Definition lower_char (c : ascii) : ascii :=
  if isupper c then ascii_of_N (code c + 32) else c.

(** [str.lower]. *)
Fixpoint lower (s : string) : string :=
  match s with
  | EmptyString => EmptyString
  | String c s' => String (lower_char c) (lower s')
  end.

Fixpoint lstrip (s : string) : string :=
  match s with
  | EmptyString => EmptyString
  | String c s' => if isspace c then lstrip s' else s
  end.

Fixpoint rstrip (s : string) : string :=
  match s with
  | EmptyString => EmptyString
  | String c s' =>
      match rstrip s' with
      | EmptyString => if isspace c then EmptyString else String c EmptyString
      | r => String c r
      end
  end.

(** [str.strip] without argument: white space removed at both ends. *)
Definition strip (s : string) : string := rstrip (lstrip s).

(** Truth value of a string: the empty string is false. *)
Definition truthy (s : string) : bool :=
  match s with EmptyString => false | _ => true end.

(** Cased characters (upper, lower, and the ordinal indicators and micro
    sign, which count as lower case). *)
Definition iscased (c : ascii) : bool :=
  let n := code c in
  (between 65 90 n || between 97 122 n || N.eqb n 170 || N.eqb n 181
   || N.eqb n 186 || between 192 214 n || between 216 246 n
   || between 248 255 n)%bool.

(** Title-case form of one character.  The sharp s becomes "Ss".  The forms
    of U+00B5 and U+00FF are U+039C and U+0178, which have no [ascii]; the
    character is kept for these two. *)
Definition title_char (c : ascii) : string :=
  if has_upper c then String (ascii_of_N (code c - 32)) EmptyString
  else if N.eqb (code c) 223 then "Ss"
  else String c EmptyString.

Fixpoint title_from (previous_is_cased : bool) (s : string) : string :=
  match s with
  | EmptyString => EmptyString
  | String c s' =>
      (if previous_is_cased then String (lower_char c) EmptyString
       else title_char c) ++ title_from (iscased c) s'
  end.

(** [str.title]. *)
Definition title (s : string) : string := title_from false s.



End PyStr.

(** ** Python floats *)

Module PyFloat.

Abbreviation float := spec_float.

Definition prec : Z := 53.
Definition emax : Z := 1024.

Definition ten (k : Z) : Q := Qpower (10 # 1) k.
Definition two (k : Z) : Q := Qpower (2 # 1) k.

Definition Qltb (a b : Q) : bool := negb (Qle_bool b a).

(** The number [m * 2^e]. *)
Definition magnitude (m : positive) (e : Z) : Q :=
  (inject_Z (Zpos m) * two e)%Q.

(** Decimal digits of a natural number. *)
Definition digits (n : Z) : string := NilZero.string_of_uint (N.to_uint (Z.to_N n)).

Fixpoint zeros (n : nat) : string :=
  match n with O => EmptyString | S n' => String "0" (zeros n') end.

Fixpoint rstrip_zeros (s : string) : string :=
  match s with
  | EmptyString => EmptyString
  | String c s' =>
      match rstrip_zeros s' with
      | EmptyString => if Ascii.eqb c "0" then EmptyString else String c EmptyString
      | r => String c r
      end
  end.

(** *** The shortest digits that read back as the same float *)

(** The decimal exponent [E] of [x > 0]: [10^E <= x < 10^(E+1)]. *)
Fixpoint exp10_up (fuel : nat) (x : Q) (E : Z) : Z :=
  match fuel with
  | O => E
  | S fuel' => if Qltb x (ten (E + 1)) then E else exp10_up fuel' x (E + 1)
  end.

Fixpoint exp10_down (fuel : nat) (x : Q) (E : Z) : Z :=
  match fuel with
  | O => E
  | S fuel' => if Qle_bool (ten E) x then E else exp10_down fuel' x (E - 1)
  end.

Definition exp10 (x : Q) : Z :=
  if Qle_bool 1%Q x then exp10_up 400 x 0 else exp10_down 400 x (-1).

(** The reals that round to the float [m * 2^e] lie between the midpoints to
    its two neighbours; a midpoint itself rounds to the float of even
    mantissa.  Below a power of two the lower neighbour is half as far. *)
Definition upper_mid (m : positive) (e : Z) : Q :=
  (inject_Z (2 * Zpos m + 1) * two (e - 1))%Q.

Definition lower_mid (m : positive) (e : Z) : Q :=
  if (Z.eqb (Zpos m) (2 ^ (prec - 1)) && Z.ltb (3 - emax - prec) e)%bool
  then (inject_Z (4 * Zpos m - 1) * two (e - 2))%Q
  else (inject_Z (2 * Zpos m - 1) * two (e - 1))%Q.

Definition reads_back (m : positive) (e : Z) (d : Q) : bool :=
  if Z.even (Zpos m)
  then (Qle_bool (lower_mid m e) d && Qle_bool d (upper_mid m e))%bool
  else (Qltb (lower_mid m e) d && Qltb d (upper_mid m e))%bool.

(** With [n] significant digits: the two decimals [c * 10^-s] and
    [(c+1) * 10^-s] around [x]; the one that reads back, the nearer one when
    both do, the even one on a tie.  The result is the integer [c] chosen. *)
Definition candidate (m : positive) (e : Z) (E : Z) (n : Z) : option (Z * Z) :=
  let x := magnitude m e in
  let s := n - 1 - E in
  let scaled := (x * ten s)%Q in
  let c := Qfloor scaled in
  let ok0 := reads_back m e (inject_Z c * ten (- s))%Q in
  let ok1 := reads_back m e (inject_Z (c + 1) * ten (- s))%Q in
  match ok0, ok1 with
  | false, false => None
  | true, false => Some (c, s)
  | false, true => Some (c + 1, s)
  | true, true =>
      match Qcompare (2 * scaled)%Q (inject_Z (2 * c + 1)) with
      | Lt => Some (c, s)
      | Gt => Some (c + 1, s)
      | Eq => Some (if Z.even c then c else c + 1, s)
      end
  end.

Fixpoint shortest_from (fuel : nat) (m : positive) (e : Z) (E : Z) (n : Z)
  : Z * Z :=
  match candidate m e E n with
  | Some r => r
  | None =>
      match fuel with
      | O => (Qfloor (magnitude m e * ten (n - 1 - E))%Q, n - 1 - E)
      | S fuel' => shortest_from fuel' m e E (n + 1)
      end
  end.

(** Digits and position of the decimal point: the float is
    [0.DIGITS * 10^decpt]. *)
Definition shortest (m : positive) (e : Z) : string * Z :=
  let '(c, s) := shortest_from 16 m e (exp10 (magnitude m e)) 1 in
  let ds := digits c in
  (rstrip_zeros ds, Z.of_nat (String.length ds) - s).

(** *** [repr] *)

Definition exponent_text (x : Z) : string :=
  (if Z.ltb x 0 then "-" else "+")
  ++ (if Z.ltb (Z.abs x) 10 then "0" else "") ++ digits (Z.abs x).

Definition repr_finite (ds : string) (decpt : Z) : string :=
  let len := Z.of_nat (String.length ds) in
  if (Z.leb decpt (-4) || Z.ltb 16 decpt)%bool then
    String.substring 0 1 ds
    ++ (if Z.ltb 1 len then "." ++ String.substring 1 (String.length ds - 1) ds
        else "")
    ++ "e" ++ exponent_text (decpt - 1)
  else if Z.leb decpt 0 then
    "0." ++ zeros (Z.to_nat (- decpt)) ++ ds
  else if Z.leb len decpt then
    ds ++ zeros (Z.to_nat (decpt - len)) ++ ".0"
  else
    String.substring 0 (Z.to_nat decpt) ds ++ "."
    ++ String.substring (Z.to_nat decpt) (String.length ds - Z.to_nat decpt) ds.

(** [repr(x)], which is also [str(x)] and [format(x, "")]. *)
Definition repr (x : float) : string :=
  match x with
  | S754_nan => "nan"
  | S754_infinity s => if s then "-inf" else "inf"
  | S754_zero s => if s then "-0.0" else "0.0"
  | S754_finite s m e =>
      let '(ds, decpt) := shortest m e in
      (if s then "-" else "") ++ repr_finite ds decpt
  end.

(** *** [round] *)

(** Nearest integer, ties to the even one. *)
Definition round_half_even (q : Q) : Z :=
  let f := Qfloor q in
  match Qcompare (2 * (q - inject_Z f))%Q 1%Q with
  | Lt => f
  | Gt => f + 1
  | Eq => if Z.even f then f else f + 1
  end.

(** [round(x)]: an integer, or the reason why there is none. *)
Inductive no_integer := is_nan | is_infinite.

Definition round0 (x : float) : no_integer + Z :=
  match x with
  | S754_nan => inl is_nan
  | S754_infinity _ => inl is_infinite
  | S754_zero _ => inr 0
  | S754_finite s m e =>
      let k := round_half_even (magnitude m e) in
      inr (if s then - k else k)
  end.

(** [round(x, 1)]: [x] rounded to one decimal, then to the nearest float. *)
Definition round1 (x : float) : float :=
  match x with
  | S754_finite s m e =>
      match round_half_even (magnitude m e * ten 1)%Q with
      | Zpos k => SFdiv prec emax (S754_finite s k 0) (S754_finite false 10 0)
      | _ => S754_zero s
      end
  | _ => x
  end.

(** The float nearest to [n / 10^k], for writing down test values. *)
Definition of_decimal (n : Z) (k : positive) : float :=
  match n with
  | Z0 => S754_zero false
  | Zpos p => SFdiv prec emax (S754_finite false p 0)
                (S754_finite false (10 ^ k) 0)
  | Zneg p => SFdiv prec emax (S754_finite true p 0)
                (S754_finite false (10 ^ k) 0)
  end.

Definition of_Z (n : Z) : float := binary_normalize prec emax n 0 false.

End PyFloat.


(** ** Python values *)

(** A [datetime] counts microseconds; a [timedelta] is a difference. *)
Definition datetime : Type := Z.
Definition timedelta : Type := Z.

Definition timedelta_seconds (seconds : Z) : timedelta := seconds * 1000000.

#[warnings="-register-all"]
Inductive PyVal : Type :=
| PNone
| PBool (b : bool)
| PInt (n : Z)
| PFloat (x : PyFloat.float)
| PStr (s : string)
| PList (l : list PyVal)
| PDict (d : gmap string PyVal)
| PDateTime (t : datetime).

(** The type hint [Dict]. *)
Abbreviation Dict := (gmap string PyVal).

(** Truth value of a dictionary: the empty one is false. *)
Definition dict_truthy (d : Dict) : bool := negb (bool_decide (d = ∅)).

(** Truth value of an [Optional[Dict]]: [None] is false as well. *)
Definition truthy (o : option Dict) : bool :=
  match o with
  | None => false
  | Some d => dict_truthy d
  end.

(** ** Exceptions *)

(** The classes of [requests.exceptions] that the handlers tell apart.
    [ConnectTimeout] derives from both [ConnectionError] and [Timeout]. *)
Inductive requests_class :=
| Timeout | ReadTimeout | ConnectTimeout | ConnectionError | HTTPError
| JSONDecodeError | RequestException.

Definition isinstance_Timeout (c : requests_class) : bool :=
  match c with Timeout | ReadTimeout | ConnectTimeout => true | _ => false end.

Definition isinstance_ConnectionError (c : requests_class) : bool :=
  match c with ConnectionError | ConnectTimeout => true | _ => false end.

(** [WeatherAPIError text value] carries the message [text], followed by
    [str(value)] when a value was formatted into it.  [Requests c text] is an
    exception [e] of [requests] with [str(e) = text]. *)
Inductive Exn : Type :=
| WeatherAPIError (text : string) (value : option PyVal)
| Requests (c : requests_class) (text : string)
| KeyError
| IndexError
| TypeError
| AttributeError
| ValueError
| OverflowError.

(** ** Operations on values, as the service uses them *)

(** [v[key]] for a string key. *)
Definition getitem (v : PyVal) (key : string) : Exn + PyVal :=
  match v with
  | PDict d => match d !! key with Some x => inr x | None => inl KeyError end
  | _ => inl TypeError
  end.

(** [v[0]]; the keys of a dictionary that came as JSON are strings, so 0 is
    none of them. *)
Definition getitem0 (v : PyVal) : Exn + PyVal :=
  match v with
  | PList l => match l with x :: _ => inr x | [] => inl IndexError end
  | PStr s =>
      match s with
      | String c _ => inr (PStr (String c EmptyString))
      | EmptyString => inl IndexError
      end
  | PDict _ => inl KeyError
  | _ => inl TypeError
  end.

(** [v.get(key, default)]. *)
Definition get (v : PyVal) (key : string) (default : PyVal) : Exn + PyVal :=
  match v with
  | PDict d => inr (match d !! key with Some x => x | None => default end)
  | _ => inl AttributeError
  end.

Definition int_of_bool (b : bool) : Z := if b then 1 else 0.

(** [round(v)]. *)
Definition round (v : PyVal) : Exn + PyVal :=
  match v with
  | PInt n => inr (PInt n)
  | PBool b => inr (PInt (int_of_bool b))
  | PFloat x =>
      match PyFloat.round0 x with
      | inr n => inr (PInt n)
      | inl PyFloat.is_nan => inl ValueError
      | inl PyFloat.is_infinite => inl OverflowError
      end
  | _ => inl TypeError
  end.

(** [round(v, 1)]. *)
Definition round_1 (v : PyVal) : Exn + PyVal :=
  match v with
  | PInt n => inr (PInt n)
  | PBool b => inr (PInt (int_of_bool b))
  | PFloat x => inr (PFloat (PyFloat.round1 x))
  | _ => inl TypeError
  end.

(** [v.title()]. *)
Definition title (v : PyVal) : Exn + PyVal :=
  match v with
  | PStr s => inr (PStr (PyStr.title s))
  | _ => inl AttributeError
  end.

(** [v == n] for an integer literal [n]. *)
Definition eq_int (v : PyVal) (n : Z) : bool :=
  match v with
  | PInt k => Z.eqb k n
  | PBool b => Z.eqb (int_of_bool b) n
  | PFloat (S754_finite s m e) =>
      Qeq_bool (PyFloat.magnitude m e) (inject_Z (if s then - n else n))
  | PFloat (S754_zero _) => Z.eqb n 0
  | _ => false
  end.

(** ** The settings module *)

Module settings.

Record api_config := {
  OPENWEATHER_API_KEY : string;
  BASE_URL : string;
  TIMEOUT : Z;
  UNITS : string
}.

Record cache_config := {
  ENABLED : bool;
  CACHE_DURATION : Z;
  MAX_CACHE_SIZE : Z
}.

(** [os.getenv("OPENWEATHER_API_KEY", "")] on the process environment. *)
Definition API_CONFIG (environ : gmap string string) : api_config :=
  {| OPENWEATHER_API_KEY := default "" (environ !! "OPENWEATHER_API_KEY");
     BASE_URL := "https://api.openweathermap.org/data/2.5";
     TIMEOUT := 10;
     UNITS := "metric" |}.

Definition CACHE_CONFIG : cache_config :=
  {| ENABLED := true; CACHE_DURATION := 300; MAX_CACHE_SIZE := 100 |}.

End settings.

(** ** The service object and the world around it *)

(** An entry of [self._cache]: the dictionary with keys "data" and
    "timestamp". *)
Record cache_entry := { data : Dict; timestamp : datetime }.

(** The attributes of a [WeatherAPI] instance. *)
Record WeatherAPI := {
  api_key : string;
  base_url : string;
  timeout : Z;
  units : string;
  _cache : gmap string cache_entry
}.

(** What [requests.get] is called with, and what comes back. *)
Record request := {
  url : string;
  params : list (string * PyVal);
  request_timeout : Z
}.

Record response := {
  raise_for_status : option Exn;
  json : Exn + PyVal
}.

(** The calls a method makes, in the order it makes them. *)
Inductive event :=
| Call_get_cached_data (key : string)
| Call_cache_data (key : string) (value : Dict)
| Call_requests_get (r : request).

(** What the outside supplies: the process environment, the cache settings
    that the settings module holds ([settings.CACHE_CONFIG] as shipped), the
    successive readings of [datetime.now()], and the outcome of the successive
    calls of [requests.get]. *)
Record Env := {
  environ : gmap string string;
  cache_settings : settings.cache_config;
  clock : nat -> datetime;
  network : nat -> request -> Exn + response
}.

(** The state a method runs in: the instance, how often the clock was read and
    the network was called so far, and the log of calls. *)
Record World := {
  self : WeatherAPI;
  clock_reads : nat;
  requests_sent : nat;
  log : list event
}.

Definition with_cache (c : gmap string cache_entry) (w : World) : World :=
  {| self := {| api_key := api_key (self w); base_url := base_url (self w);
                timeout := timeout (self w); units := units (self w);
                _cache := c |};
     clock_reads := clock_reads w;
     requests_sent := requests_sent w;
     log := log w |}.

(** ** The monad of methods *)

Inductive outcome (A : Type) : Type :=
| Returned (a : A)
| Raised (e : Exn).
Arguments Returned {A} a.
Arguments Raised {A} e.

Definition M (A : Type) : Type := Env -> World -> outcome A * World.

Definition ret {A} (a : A) : M A := fun _ w => (Returned a, w).

Definition bind {A B} (m : M A) (k : A -> M B) : M B :=
  fun env w =>
    match m env w with
    | (Returned a, w') => k a env w'
    | (Raised e, w') => (Raised e, w')
    end.

Definition raise {A} (e : Exn) : M A := fun _ w => (Raised e, w).

Declare Scope py_scope.
Delimit Scope py_scope with py.
Notation "x <- m ;; k" := (bind m (fun x => k))
  (at level 100, m at next level, right associativity) : py_scope.
Notation "m ;; k" := (bind m (fun _ => k))
  (at level 100, right associativity) : py_scope.
Local Open Scope py_scope.

(** A result computed without effect, or the exception it raises. *)
Definition lift {A} (r : Exn + A) : M A :=
  match r with inl e => raise e | inr a => ret a end.

(** [try: body  except ...], the handlers being a partial function from the
    exception raised to the clause that catches it. *)
Definition try_except {A} (body : M A) (handlers : Exn -> option (M A)) : M A :=
  fun env w =>
    match body env w with
    | (Returned a, w') => (Returned a, w')
    | (Raised e, w') =>
        match handlers e with
        | Some clause => clause env w'
        | None => (Raised e, w')
        end
    end.

Definition get_self : M WeatherAPI := fun _ w => (Returned (self w), w).

Definition set_cache (c : gmap string cache_entry) : M unit :=
  fun _ w => (Returned tt, with_cache c w).

Definition emit (ev : event) : M unit :=
  fun _ w =>
    (Returned tt,
     {| self := self w; clock_reads := clock_reads w;
        requests_sent := requests_sent w; log := log w ++ [ev] |}).

(** [datetime.now()]. *)
Definition datetime_now : M datetime :=
  fun env w =>
    (Returned (clock env (clock_reads w)),
     {| self := self w; clock_reads := S (clock_reads w);
        requests_sent := requests_sent w; log := log w |}).

(** [requests.get(url, params=params, timeout=timeout)]. *)
Definition requests_get (url : string) (params : list (string * PyVal))
    (timeout : Z) : M response :=
  let r := {| url := url; params := params; request_timeout := timeout |} in
  emit (Call_requests_get r);;
  fun env w =>
    let w' := {| self := self w; clock_reads := clock_reads w;
                 requests_sent := S (requests_sent w); log := log w |} in
    match network env (requests_sent w) r with
    | inl e => (Raised e, w')
    | inr resp => (Returned resp, w')
    end.

(** ** class WeatherAPI *)

(** [__init__]. *)
Definition __init__ (env : Env) : WeatherAPI :=
  let API_CONFIG := settings.API_CONFIG (environ env) in
  {| api_key := settings.OPENWEATHER_API_KEY API_CONFIG;
     base_url := settings.BASE_URL API_CONFIG;
     timeout := settings.TIMEOUT API_CONFIG;
     units := settings.UNITS API_CONFIG;
     _cache := ∅ |}.

(** [_cache_data]. *)
Definition _cache_data (key : string) (data : Dict) : M unit :=
  emit (Call_cache_data key data);;
  now <- datetime_now;;
  self <- get_self;;
  set_cache (<[key := {| data := data; timestamp := now |}]> (_cache self)).

(** [_get_cached_data]. *)
Definition _get_cached_data (key : string) : M (option Dict) :=
  emit (Call_get_cached_data key);;
  self <- get_self;;
  match _cache self !! key with
  | None => ret None
  | Some cache_entry =>
      now <- datetime_now;;
      let cache_age := now - timestamp cache_entry in
      if Z.ltb (timedelta_seconds 300) cache_age then
        set_cache (delete key (_cache self));;
        ret None
      else
        ret (Some (data cache_entry))
  end.

(** [_process_weather_data]; the entries of the result are evaluated in the
    order of the dictionary display. *)
Definition _process_weather_data (raw_data : PyVal) : M Dict :=
  weather_list <- lift (getitem raw_data "weather");;
  weather <- lift (getitem0 weather_list);;
  main <- lift (getitem raw_data "main");;
  wind <- lift (get raw_data "wind" (PDict ∅));;
  city <- lift (get raw_data "name" (PStr "Unknown"));;
  sys <- lift (get raw_data "sys" (PDict ∅));;
  country <- lift (get sys "country" (PStr ""));;
  temp <- lift (getitem main "temp");;
  temperature <- lift (round temp);;
  feels <- lift (getitem main "feels_like");;
  feels_like <- lift (round_1 feels);;
  humidity <- lift (getitem main "humidity");;
  pressure <- lift (get main "pressure" (PInt 0));;
  wind_speed <- lift (get wind "speed" (PInt 0));;
  wind_direction <- lift (get wind "deg" (PInt 0));;
  description_raw <- lift (getitem weather "description");;
  description <- lift (title description_raw);;
  weather_id <- lift (getitem weather "id");;
  icon <- lift (getitem weather "icon");;
  now <- datetime_now;;
  ret (<["city" := city]>
      (<["country" := country]>
      (<["temperature" := temperature]>
      (<["feels_like" := feels_like]>
      (<["humidity" := humidity]>
      (<["pressure" := pressure]>
      (<["wind_speed" := wind_speed]>
      (<["wind_direction" := wind_direction]>
      (<["description" := description]>
      (<["weather_id" := weather_id]>
      (<["icon" := icon]>
      (<["timestamp" := PDateTime now]> ∅)))))))))))).

(** The cache keys: [f"city_{city.lower()}"] and [f"coords_{lat}_{lon}"]. *)
Definition city_cache_key (city : string) : string :=
  "city_" ++ PyStr.lower city.

Definition coords_cache_key (lat lon : PyFloat.float) : string :=
  "coords_" ++ PyFloat.repr lat ++ "_" ++ PyFloat.repr lon.

(** [if cached_data: return cached_data], followed by the rest of the body. *)
Definition return_if_truthy (cached_data : option Dict) (rest : M Dict) : M Dict :=
  match cached_data with
  | Some hit => if dict_truthy hit then ret hit else rest
  | None => rest
  end.

(** [response.raise_for_status()]. *)
Definition call_raise_for_status (r : response) : M unit :=
  match raise_for_status r with
  | Some e => raise e
  | None => ret tt
  end.

(** [get_weather_by_city]. *)
Definition get_weather_by_city (city : string) : M Dict :=
  if negb (PyStr.truthy (PyStr.strip city)) then
    raise (WeatherAPIError "City name cannot be empty" None)
  else
    let cache_key := city_cache_key city in
    cached_data <- _get_cached_data cache_key;;
    return_if_truthy cached_data (
      self <- get_self;;
      let url := base_url self ++ "/weather" in
      let params :=
        [("q", PStr city); ("units", PStr (units self));
         ("appid", PStr (api_key self))] in
      try_except (
        response <- requests_get url params (timeout self);;
        call_raise_for_status response;;
        data <- lift (json response);;
        cod <- lift (get data "cod" PNone);;
        if eq_int cod 200 then
          processed_data <- _process_weather_data data;;
          _cache_data cache_key processed_data;;
          ret processed_data
        else
          message <- lift (get data "message" (PStr "Unknown error"));;
          raise (WeatherAPIError "API Error: " (Some message))
      ) (fun e =>
        match e with
        | Requests c text =>
            if isinstance_Timeout c then
              Some (raise (WeatherAPIError
                             "Request timed out. Please try again." None))
            else if isinstance_ConnectionError c then
              Some (raise (WeatherAPIError "No internet connection." None))
            else
              Some (raise (WeatherAPIError ("Request failed: " ++ text) None))
        | _ => None
        end)).

(** [get_weather_by_coordinates]. *)
Definition get_weather_by_coordinates (lat lon : PyFloat.float) : M Dict :=
  let cache_key := coords_cache_key lat lon in
  cached_data <- _get_cached_data cache_key;;
  return_if_truthy cached_data (
    self <- get_self;;
    let url := base_url self ++ "/weather" in
    let params :=
      [("lat", PFloat lat); ("lon", PFloat lon); ("units", PStr (units self));
       ("appid", PStr (api_key self))] in
    try_except (
      response <- requests_get url params (timeout self);;
      call_raise_for_status response;;
      data <- lift (json response);;
      processed_data <- _process_weather_data data;;
      _cache_data cache_key processed_data;;
      ret processed_data
    ) (fun e =>
      match e with
      | Requests c text =>
          Some (raise (WeatherAPIError
                         ("Failed to get weather data: " ++ text) None))
      | _ => None
      end)).

(** ** Vocabulary of the properties *)

(** The cache of the instance, and the validity window of an entry:
    [timedelta(seconds=300)]. *)
Definition cache_of (w : World) : gmap string cache_entry := _cache (self w).

Definition ttl : timedelta := timedelta_seconds 300.

(** The attributes other than the cache. *)
Definition same_attributes (a b : WeatherAPI) : Prop :=
  api_key a = api_key b /\ base_url a = base_url b
  /\ timeout a = timeout b /\ units a = units b.

(** A caller that stores the given entries one after the other. *)
Fixpoint cache_all (entries : list (string * Dict)) : M unit :=
  match entries with
  | [] => ret tt
  | (key, value) :: rest => _cache_data key value;; cache_all rest
  end.


(** The calls logged between two worlds, and their kinds. *)
Definition calls (w w' : World) : list event := drop (length (log w)) (log w').


Definition is_store (ev : event) : bool :=
  match ev with Call_cache_data _ _ => true | _ => false end.

Definition is_request (ev : event) : bool :=
  match ev with Call_requests_get _ => true | _ => false end.

(** A string made of white space only (the empty string included). *)
Fixpoint only_whitespace (s : string) : bool :=
  match s with
  | EmptyString => true
  | String c s' => PyStr.isspace c && only_whitespace s'
  end.

(** What a fetch after the lookup amounts to, from the world [w1] the lookup
    left to the outcome and the world of [run]: one request; on success the
    answer stored under [key]; on failure nothing stored and an exception that
    is not one of [requests]. *)
Definition fetched (key : string) (w1 : World) (run : outcome Dict * World)
  : Prop :=
  let w' := snd run in
  exists req,
    requests_sent w' = S (requests_sent w1)
    /\ same_attributes (self w') (self w1)
    /\ match fst run with
       | Returned d =>
           exists t,
             cache_of w' = <[key := {| data := d; timestamp := t |}]> (cache_of w1)
             /\ log w' = (log w1 ++ [Call_requests_get req; Call_cache_data key d])%list
             /\ dict_truthy d = true
       | Raised e =>
           cache_of w' = cache_of w1
           /\ log w' = (log w1 ++ [Call_requests_get req])%list
           /\ (forall c text, e ≠ Requests c text)
       end.

(** What both public methods do once the key is known, [lookup] being the run
    of the cache lookup from the world [w] and [run] that of the method: a
    truthy value found is returned in the world the lookup left; otherwise
    the fetch follows. *)
Definition run_shape (key : string) (w : World)
    (lookup : outcome (option Dict) * World) (run : outcome Dict * World)
  : Prop :=
  exists o w1,
    lookup = (Returned o, w1)
    /\ if truthy o
       then exists hit, o = Some hit /\ run = (Returned hit, w1)
       else fetched key w1 run.

(** A run made no request: what it returned came from the cache. *)
Definition without_request (w : World) (run : outcome Dict * World) : bool :=
  negb (existsb is_request (calls w (snd run))).




(** The environment with other cache settings. *)
Definition with_cache_settings (s : settings.cache_config) (env : Env) : Env :=
  {| environ := environ env; cache_settings := s; clock := clock env;
     network := network env |}.


(** Number of characters after the decimal point, when there is one. *)
Fixpoint decimals (s : string) : option nat :=
  match s with
  | EmptyString => None
  | String c s' => if Ascii.eqb c "." then Some (String.length s') else decimals s'
  end.

(** A float whose text has exactly [p] decimals. *)
Definition has_precision (p : nat) (x : PyFloat.float) : Prop :=
  decimals (PyFloat.repr x) = Some p.

(** Every character of the string satisfies the test. *)
Fixpoint all_chars (test : ascii -> bool) (s : string) : bool :=
  match s with
  | EmptyString => true
  | String c s' => test c && all_chars test s'
  end.

(** The characters a float is written with. *)
Definition float_char (c : ascii) : bool :=
  existsb (Ascii.eqb c) (list_ascii_of_string "0123456789.-+einfa").

(** ** Sample inputs *)

Module Samples.

(** A world in which nothing is configured, nothing answers and the clock
    reads the given values in turn (the last one for ever). *)
Definition readings (ts : list datetime) (n : nat) : datetime :=
  nth n ts (default 0 (last ts)).

Definition offline (ts : list datetime) : Env :=
  {| environ := ∅;
     cache_settings := settings.CACHE_CONFIG;
     clock := readings ts;
     network := fun _ _ => inl (Requests ConnectionError "unreachable") |}.

Definition fresh_world (env : Env) : World :=
  {| self := __init__ env; clock_reads := 0; requests_sent := 0; log := [] |}.

Definition W1 : Dict := {[ "city" := PStr "London" ]}.
Definition W2 : Dict := {[ "city" := PStr "Paris" ]}.

(** The instant [s] seconds after the origin of the clock. *)
Definition at_second (s : Z) : datetime := timedelta_seconds s.

(** An answer of the provider, as [response.json()] returns it. *)
Definition answer : PyVal :=
  PDict (list_to_map
    [("cod", PInt 200); ("name", PStr "London");
     ("sys", PDict (list_to_map [("country", PStr "GB")]));
     ("main", PDict (list_to_map
        [("temp", PFloat (PyFloat.of_decimal 125 1));
         ("feels_like", PFloat (PyFloat.of_decimal 1137 2));
         ("humidity", PInt 81)]));
     ("weather", PList [PDict (list_to_map
        [("description", PStr "broken clouds"); ("id", PInt 803);
         ("icon", PStr "04d")])])]).

(** What [_process_weather_data] makes of it at second 0. *)
Definition processed_answer : Dict :=
  list_to_map
    [("city", PStr "London"); ("country", PStr "GB");
     ("temperature", PInt 12);
     ("feels_like", PFloat (PyFloat.of_decimal 114 1));
     ("humidity", PInt 81); ("pressure", PInt 0);
     ("wind_speed", PInt 0); ("wind_direction", PInt 0);
     ("description", PStr "Broken Clouds"); ("weather_id", PInt 803);
     ("icon", PStr "04d"); ("timestamp", PDateTime 0)].

(** A world in which every request is answered with [answer]. *)
Definition online (ts : list datetime) : Env :=
  {| environ := {[ "OPENWEATHER_API_KEY" := "secret" ]};
     cache_settings := settings.CACHE_CONFIG;
     clock := readings ts;
     network := fun _ _ =>
       inr {| raise_for_status := None; json := inr answer |} |}.

(** 101 entries under the keys "city_0" ... "city_100". *)
Definition many_entries : list (string * Dict) :=
  map (fun i => ("city_" ++ PyFloat.digits (Z.of_nat i), W1)) (seq 0 101).

End Samples.

Module Scenarios.

Import Samples.

(** An entry stored at second 0 under "city_london". *)
Definition london_at_0 (env : Env) : World :=
  snd (_cache_data "city_london" W1 env (fresh_world env)).


(** The cache is switched off in the settings; the clock reads second 0 at
    the store and second 1 afterwards. *)
Definition disabled : Env :=
  with_cache_settings
    {| settings.ENABLED := false; settings.CACHE_DURATION := 300;
       settings.MAX_CACHE_SIZE := 100 |}
    (offline [at_second 0; at_second 1]).

(** An empty dictionary stored at second 0 under "city_london". *)
Definition empty_at_0 (env : Env) : World :=
  snd (_cache_data "city_london" ∅ env (fresh_world env)).

(** The floats 51.5 and 0.25. *)
Definition f51_5 : PyFloat.float := S754_finite false 7247980650299392 (-47).
Definition f0_25 : PyFloat.float := S754_finite false 4503599627370496 (-54).

End Scenarios.

From Stdlib Require Lqa Qabs.

(** * The rest of the application: location lookup and the worker *)

(** ** [float(text)] and [text.split(",")] *)

Module PyParse.

(** White space as [float] strips it: the ASCII blanks, and the two blanks
    above U+007F that are turned into a space first. *)
Definition isspace (c : ascii) : bool :=
  let n := PyStr.code c in
  (PyStr.between 9 13 n || N.eqb n 32 || N.eqb n 133 || N.eqb n 160)%bool.

Fixpoint lstrip (s : string) : string :=
  match s with
  | EmptyString => EmptyString
  | String c s' => if isspace c then lstrip s' else s
  end.

Fixpoint rstrip (s : string) : string :=
  match s with
  | EmptyString => EmptyString
  | String c s' =>
      match rstrip s' with
      | EmptyString => if isspace c then EmptyString else String c EmptyString
      | r => String c r
      end
  end.

Definition isdigit (c : ascii) : bool := PyStr.between 48 57 (PyStr.code c).

(** Underscores may stand between two digits only; they are taken out.
    [prev] is the character before. *)
Fixpoint without_underscores (prev : ascii) (s : string) : option string :=
  match s with
  | EmptyString => if Ascii.eqb prev "_" then None else Some EmptyString
  | String c s' =>
      if Ascii.eqb c "_" then
        if isdigit prev then without_underscores c s' else None
      else if (Ascii.eqb prev "_" && negb (isdigit c))%bool then None
      else option_map (String c) (without_underscores c s')
  end.

(** The digits at the front of a string, and what follows them. *)
Fixpoint span_digits (s : string) : string * string :=
  match s with
  | String c s' =>
      if isdigit c then
        let '(ds, rest) := span_digits s' in (String c ds, rest)
      else (EmptyString, s)
  | EmptyString => (EmptyString, EmptyString)
  end.

(** The number a string of digits writes. *)
Fixpoint value_from (acc : Z) (ds : string) : Z :=
  match ds with
  | EmptyString => acc
  | String c ds' => value_from (10 * acc + Z.of_N (PyStr.code c - 48)) ds'
  end.

Definition value (ds : string) : Z := value_from 0 ds.

Fixpoint lstrip_zeros (ds : string) : string :=
  match ds with
  | String c ds' => if Ascii.eqb c "0" then lstrip_zeros ds' else ds
  | EmptyString => EmptyString
  end.

(** An optional sign at the front. *)
Definition span_sign (s : string) : bool * string :=
  match s with
  | String c s' =>
      if Ascii.eqb c "-" then (true, s')
      else if Ascii.eqb c "+" then (false, s')
      else (false, s)
  | EmptyString => (false, s)
  end.

Definition MAX_ABS_EXP : Z := 1100000000.
Definition MAX_DIGITS : Z := 1000000000.

(** An exponent part at the front, if there is a complete one: its value and
    what follows; otherwise exponent 0 and the string as it is. *)
Definition span_exponent (s : string) : Z * string :=
  match s with
  | String c s' =>
      if (Ascii.eqb c "e" || Ascii.eqb c "E")%bool then
        let '(esign, s1) := span_sign s' in
        let '(ds, rest) := span_digits s1 in
        match ds with
        | EmptyString => (0, s)
        | _ =>
            let significant := lstrip_zeros ds in
            let abs_exp :=
              if (Nat.ltb 9 (String.length significant)
                  || Z.ltb MAX_ABS_EXP (value significant))%bool
              then MAX_ABS_EXP else value significant in
            (if esign then - abs_exp else abs_exp, rest)
        end
      else (0, s)
  | EmptyString => (0, s)
  end.

(** The float nearest to [n * 10^e] (ties to the even mantissa, infinity
    beyond the largest float), with the given sign. *)
Definition nearest (sign : bool) (n : Z) (e : Z) : PyFloat.float :=
  match n with
  | Zpos p =>
      match e with
      | Zneg k =>
          SFdiv PyFloat.prec PyFloat.emax
            (S754_finite sign p 0) (S754_finite false (10 ^ k) 0)
      | _ =>
          binary_normalize PyFloat.prec PyFloat.emax
            (if sign then - (n * 10 ^ e) else n * 10 ^ e) 0 false
      end
  | _ => S754_zero sign
  end.

(** A decimal number that takes the whole string: sign, digits with an
    optional point, optional exponent.  [None] when the string does not start
    with a number at all, [Some None] when a number is followed by something
    or is too long. *)
Definition parse_decimal (s : string) : option (option PyFloat.float) :=
  let '(sign, s1) := span_sign s in
  let '(int_digits, s2) := span_digits s1 in
  let '(frac_digits, s3) :=
    match s2 with
    | String c s2' => if Ascii.eqb c "." then span_digits s2' else (EmptyString, s2)
    | EmptyString => (EmptyString, s2)
    end in
  match int_digits ++ frac_digits with
  | EmptyString => None
  | all_digits =>
      if (Z.ltb MAX_DIGITS (Z.of_nat (String.length (lstrip_zeros all_digits)))
          || Z.ltb MAX_DIGITS (Z.of_nat (String.length frac_digits)))%bool
      then Some None
      else
        let '(e, rest) := span_exponent s3 in
        match rest with
        | EmptyString =>
            Some (Some (nearest sign (value all_digits)
                          (e - Z.of_nat (String.length frac_digits))))
        | _ => Some None
        end
  end.

(** "inf", "infinity" or "nan" in any letter case, with an optional sign. *)
Definition parse_inf_or_nan (s : string) : option PyFloat.float :=
  let '(sign, s1) := span_sign s in
  let word := PyStr.lower s1 in
  if (String.eqb word "inf" || String.eqb word "infinity")%bool
  then Some (S754_infinity sign)
  else if String.eqb word "nan" then Some S754_nan
  else None.

(** [float(s)] for a string; [None] stands for [ValueError]. *)
Definition float_of_string (s : string) : option PyFloat.float :=
  match without_underscores "000"%char (rstrip (lstrip s)) with
  | None => None
  | Some t =>
      match parse_decimal t with
      | Some r => r
      | None => parse_inf_or_nan t
      end
  end.

(** [s.split(sep)] for a separator of one character. *)
Fixpoint split (sep : ascii) (s : string) : list string :=
  match s with
  | EmptyString => [EmptyString]
  | String c s' =>
      if Ascii.eqb c sep then EmptyString :: split sep s'
      else
        match split sep s' with
        | part :: parts => String c part :: parts
        | [] => [String c EmptyString]
        end
  end.

End PyParse.

(** ** services/location_service.py *)

(** The module's [API_CONFIG], read where a function needs it. *)
Definition get_env : M Env := fun env w => (Returned env, w).

(** [v.split(",")]. *)
Definition split_comma (v : PyVal) : Exn + list string :=
  match v with
  | PStr s => inr (PyParse.split "," s)
  | _ => inl AttributeError
  end.

(** [lat, lon = map(float, parts)]: a part that is no number, too few parts
    and too many parts all end in [ValueError]. *)
Definition unpack_two_floats (parts : list string)
  : Exn + (PyFloat.float * PyFloat.float) :=
  match parts with
  | [a; b] =>
      match PyParse.float_of_string a, PyParse.float_of_string b with
      | Some lat, Some lon => inr (lat, lon)
      | _, _ => inl ValueError
      end
  | _ => inl ValueError
  end.

(** What a call of the location service ends in: the triple it returns,
    [LocationServiceError] with its message ([text], followed by the text of
    [cause] when there is one), or another exception, which it lets pass. *)
Inductive location_result :=
| Located (lat lon : PyFloat.float) (city : PyVal)
| LocationServiceError (text : string) (cause : option Exn)
| Propagated (e : Exn).

Module LocationService.

(** The [try] block of [get_current_location]. *)
Definition locate : M (PyFloat.float * PyFloat.float * PyVal) :=
  env <- get_env;;
  response <- requests_get "https://ipinfo.io/json" []
                (settings.TIMEOUT (settings.API_CONFIG (environ env)));;
  call_raise_for_status response;;
  data <- lift (json response);;
  location <- lift (get data "loc" (PStr "0,0"));;
  parts <- lift (split_comma location);;
  lat_lon <- lift (unpack_two_floats parts);;
  city <- lift (get data "city" (PStr "Unknown"));;
  ret (fst lat_lon, snd lat_lon, city).

(** [get_current_location], with its two [except] clauses. *)
Definition get_current_location (env : Env) (w : World)
  : location_result * World :=
  match locate env w with
  | (Returned (lat, lon, city), w') => (Located lat lon city, w')
  | (Raised e, w') =>
      (match e with
       | Requests c text =>
           LocationServiceError ("Failed to get location: " ++ text) None
       | ValueError | KeyError =>
           LocationServiceError "Invalid location data: " (Some e)
       | _ => Propagated e
       end, w')
  end.

End LocationService.

(** ** ui/main_window.py: the worker *)

(** What a run of the worker ends in: one of its two signals, emitted once. *)
Inductive signal :=
| weather_data_ready (data : Dict)
| error_occurred (text : string) (value : option PyVal).

Module WeatherWorker.

(** The attributes [city] and [coordinates]; each may be [None].  The
    attribute [api] is the instance of the world. *)
Record t := {
  city : option string;
  coordinates : option (PyFloat.float * PyFloat.float)
}.

(** The body of the [try] block of [run], up to the emission: the city when
    it is truthy, else the coordinates when there are any, else an error. *)
Definition fetch (self : t) : M Dict :=
  let otherwise :=
    match coordinates self with
    | Some (lat, lon) => get_weather_by_coordinates lat lon
    | None => raise (WeatherAPIError "No city or coordinates provided" None)
    end in
  match city self with
  | Some name => if PyStr.truthy name then get_weather_by_city name else otherwise
  | None => otherwise
  end.

(** [run]: the signal emitted, or the exception that ends the thread. *)
Definition run (self : t) (env : Env) (w : World) : (Exn + signal) * World :=
  match fetch self env w with
  | (Returned data, w') => (inr (weather_data_ready data), w')
  | (Raised (WeatherAPIError text value), w') =>
      (inr (error_occurred text value), w')
  | (Raised e, w') => (inl e, w')
  end.

End WeatherWorker.

(** ** Vocabulary of the further properties *)

(** The twelve fields of a processed answer. *)
Definition fields : gset string :=
  list_to_set
    ["city"; "country"; "temperature"; "feels_like"; "humidity"; "pressure";
     "wind_speed"; "wind_direction"; "description"; "weather_id"; "icon";
     "timestamp"].

(** An optional member that must be a dictionary when it is there. *)
Definition absent_or_dict (o : option PyVal) : bool :=
  match o with
  | None | Some (PDict _) => true
  | Some _ => false
  end.

(** A number [round] turns into an integer. *)
Definition has_integer (o : option PyVal) : bool :=
  match o with
  | Some (PInt _) | Some (PBool _) => true
  | Some (PFloat (S754_finite _ _ _)) | Some (PFloat (S754_zero _)) => true
  | _ => false
  end.

Definition is_number (o : option PyVal) : bool :=
  match o with
  | Some (PInt _) | Some (PBool _) | Some (PFloat _) => true
  | _ => false
  end.

Definition is_str (o : option PyVal) : bool :=
  match o with Some (PStr _) => true | _ => false end.

(** The first element of "weather" is a dictionary that has what is read
    from it. *)
Definition weather_ok (o : option PyVal) : bool :=
  match o with
  | Some (PList (PDict weather :: _)) =>
      is_str (weather !! "description")
      && bool_decide (is_Some (weather !! "id"))
      && bool_decide (is_Some (weather !! "icon"))
  | _ => false
  end.

Definition main_ok (o : option PyVal) : bool :=
  match o with
  | Some (PDict main) =>
      has_integer (main !! "temp") && is_number (main !! "feels_like")
      && bool_decide (is_Some (main !! "humidity"))
  | _ => false
  end.

(** An answer that [_process_weather_data] can process. *)
Definition well_formed (raw_data : PyVal) : bool :=
  match raw_data with
  | PDict raw =>
      weather_ok (raw !! "weather") && main_ok (raw !! "main")
      && absent_or_dict (raw !! "wind") && absent_or_dict (raw !! "sys")
  | _ => false
  end.

(** The number a float stands for (0 for those that stand for none). *)
Definition float_value (x : PyFloat.float) : Q :=
  match x with
  | S754_finite s m e =>
      if s then (- PyFloat.magnitude m e)%Q else PyFloat.magnitude m e
  | _ => 0%Q
  end.

(** What the handlers of the two methods make of an exception that leaves
    the [try] block. *)
Definition city_handler (e : Exn) : Exn :=
  match e with
  | Requests c text =>
      if isinstance_Timeout c then
        WeatherAPIError "Request timed out. Please try again." None
      else if isinstance_ConnectionError c then
        WeatherAPIError "No internet connection." None
      else WeatherAPIError ("Request failed: " ++ text) None
  | _ => e
  end.

Definition coords_handler (e : Exn) : Exn :=
  match e with
  | Requests c text =>
      WeatherAPIError ("Failed to get weather data: " ++ text) None
  | _ => e
  end.

(** The requests of the two methods. *)
Definition city_request (self : WeatherAPI) (city : string) : request :=
  {| url := base_url self ++ "/weather";
     params := [("q", PStr city); ("units", PStr (units self));
                ("appid", PStr (api_key self))];
     request_timeout := timeout self |}.

Definition coords_request (self : WeatherAPI) (lat lon : PyFloat.float)
  : request :=
  {| url := base_url self ++ "/weather";
     params := [("lat", PFloat lat); ("lon", PFloat lon);
                ("units", PStr (units self)); ("appid", PStr (api_key self))];
     request_timeout := timeout self |}.

(** The world once a request has been sent. *)
Definition sent (r : request) (w : World) : World :=
  {| self := self w; clock_reads := clock_reads w;
     requests_sent := S (requests_sent w);
     log := log w ++ [Call_requests_get r] |}.

(** What the first three lines of the [try] block get hold of: the decoded
    answer, or the exception of [requests.get], [raise_for_status] or
    [json]. *)
Definition answer_to (r : request) (env : Env) (w : World) : Exn + PyVal :=
  match network env (requests_sent w) r with
  | inl e => inl e
  | inr resp =>
      match raise_for_status resp with
      | Some e => inl e
      | None => json resp
      end
  end.

(** Processing an answer and storing the result under [key]. *)
Definition process_and_store (key : string) (data : PyVal) : M Dict :=
  processed_data <- _process_weather_data data;;
  _cache_data key processed_data;;
  ret processed_data.

(** A run with the exception it may raise passed through a handler. *)
Definition handled (handler : Exn -> Exn) (run : outcome Dict * World)
  : outcome Dict * World :=
  match run with
  | (Raised e, w) => (Raised (handler e), w)
  | r => r
  end.

(** The two fetches in direct style, from the world the lookup left. *)
Definition city_fetch (city : string) (env : Env) (w1 : World)
  : outcome Dict * World :=
  let r := city_request (self w1) city in
  match answer_to r env w1 with
  | inl e => (Raised (city_handler e), sent r w1)
  | inr data =>
      match get data "cod" PNone with
      | inl e => (Raised e, sent r w1)
      | inr cod =>
          if eq_int cod 200 then
            handled city_handler
              (process_and_store (city_cache_key city) data env (sent r w1))
          else
            (Raised (WeatherAPIError "API Error: "
                       (Some (default (PStr "Unknown error")
                                match data with
                                | PDict d => d !! "message"
                                | _ => None
                                end))),
             sent r w1)
      end
  end.

Definition coords_fetch (lat lon : PyFloat.float) (env : Env) (w1 : World)
  : outcome Dict * World :=
  let r := coords_request (self w1) lat lon in
  match answer_to r env w1 with
  | inl e => (Raised (coords_handler e), sent r w1)
  | inr data =>
      handled coords_handler
        (process_and_store (coords_cache_key lat lon) data env (sent r w1))
  end.

(** A call of one of the two public methods, and a run of several. *)
Inductive call :=
| by_city (city : string)
| by_coordinates (lat lon : PyFloat.float).

Definition perform (c : call) : M Dict :=
  match c with
  | by_city city => get_weather_by_city city
  | by_coordinates lat lon => get_weather_by_coordinates lat lon
  end.

Fixpoint perform_all (cs : list call) (env : Env) (w : World) : World :=
  match cs with
  | [] => w
  | c :: cs' => perform_all cs' env (snd (perform c env w))
  end.

(** A cache as the public methods leave it: every value truthy, every key
    under one of the two tags. *)
Definition tagged (key : string) : Prop :=
  exists rest, key = "city_" ++ rest \/ key = "coords_" ++ rest.

Definition cache_ok (c : gmap string cache_entry) : Prop :=
  forall key entry,
    c !! key = Some entry ->
    dict_truthy (data entry) = true /\ dom (data entry) = fields /\ tagged key.

(** The key of a call, and the calls refused before the key is made. *)
Definition cache_key (c : call) : string :=
  match c with
  | by_city city => city_cache_key city
  | by_coordinates lat lon => coords_cache_key lat lon
  end.

Definition blank (c : call) : bool :=
  match c with
  | by_city city => only_whitespace city
  | by_coordinates _ _ => false
  end.

(** The request of a call. *)
Definition request_of (self : WeatherAPI) (c : call) : request :=
  match c with
  | by_city city => city_request self city
  | by_coordinates lat lon => coords_request self lat lon
  end.

(** A method in direct style: the value found by the lookup when it is
    truthy, else the fetch from the world the lookup left. *)
Definition served_or (fetch : Env -> World -> outcome Dict * World)
    (lookup : outcome (option Dict) * World) (env : Env)
  : outcome Dict * World :=
  match lookup with
  | (Returned (Some hit), w1) =>
      if dict_truthy hit then (Returned hit, w1) else fetch env w1
  | (Returned None, w1) => fetch env w1
  | (Raised e, w1) => (Raised e, w1)
  end.

(** The member [key] of an optional value, when that value is a dictionary
    that has one. *)
Definition member (o : option PyVal) (key : string) : option PyVal :=
  match o with
  | Some (PDict d) => d !! key
  | _ => None
  end.

(** The exceptions of the language itself, as against [WeatherAPIError] and
    those of [requests]. *)
Definition builtin (e : Exn) : bool :=
  match e with
  | WeatherAPIError _ _ | Requests _ _ => false
  | _ => true
  end.

(** The world after one more reading of the clock. *)
Definition tick (w : World) : World :=
  {| self := self w; clock_reads := S (clock_reads w);
     requests_sent := requests_sent w; log := log w |}.

(** The message of the [WeatherAPIError] that [get_weather_by_city] raises
    for an exception of [requests] of class [c] with text [text]. *)
Definition city_failure_message (c : requests_class) (text : string) : string :=
  if isinstance_Timeout c then "Request timed out. Please try again."
  else if isinstance_ConnectionError c then "No internet connection."
  else "Request failed: " ++ text.

Module Samples2.

(** The dictionary of [Samples.answer] and its member "main". *)
Definition answer_main : Dict :=
  list_to_map
    [("temp", PFloat (PyFloat.of_decimal 125 1));
     ("feels_like", PFloat (PyFloat.of_decimal 1137 2));
     ("humidity", PInt 81)].

Definition answer_dict : Dict :=
  list_to_map
    [("cod", PInt 200); ("name", PStr "London");
     ("sys", PDict (list_to_map [("country", PStr "GB")]));
     ("main", PDict answer_main);
     ("weather", PList [PDict (list_to_map
        [("description", PStr "broken clouds"); ("id", PInt 803);
         ("icon", PStr "04d")])])].

(** The provider's answer for a city it does not know. *)
Definition not_found : Dict :=
  list_to_map [("cod", PStr "404"); ("message", PStr "city not found")].

(** An answer that can be processed although its "cod" is not 200. *)
Definition not_found_but_complete : Dict :=
  <["cod" := PStr "404"]> answer_dict.

(** A world in which every request is answered with the given value. *)
Definition answering (data : PyVal) (ts : list datetime) : Env :=
  {| environ := ∅;
     cache_settings := settings.CACHE_CONFIG;
     clock := Samples.readings ts;
     network := fun _ _ =>
       inr {| raise_for_status := None; json := inr data |} |}.

(** A world in which every request raises the given exception. *)
Definition failing (e : Exn) (ts : list datetime) : Env :=
  {| environ := ∅;
     cache_settings := settings.CACHE_CONFIG;
     clock := Samples.readings ts;
     network := fun _ _ => inl e |}.

End Samples2.

(** The world once [value] has been stored under [key]. *)
Definition stored (key : string) (value : Dict) (env : Env) (w : World) : World :=
  {| self := {| api_key := api_key (self w); base_url := base_url (self w);
                timeout := timeout (self w); units := units (self w);
                _cache := <[key := {| data := value;
                                      timestamp := clock env (clock_reads w) |}]>
                            (_cache (self w)) |};
     clock_reads := S (clock_reads w);
     requests_sent := requests_sent w;
     log := log w ++ [Call_cache_data key value] |}.

(** The world the lookup of [key] leaves. *)
Definition looked_up (key : string) (env : Env) (w : World) : World :=
  snd (_get_cached_data key env w).

(** The member "cod" of an answer is the integer 200. *)
Definition cod_200 (data : PyVal) : bool :=
  match data with
  | PDict d => eq_int (default PNone (d !! "cod")) 200
  | _ => false
  end.

(** The ways a call can go: refused for a blank name, served from the cache,
    failed after the request, or fetched, processed and stored. *)
Inductive call_outcome (c : call) (env : Env) (w : World)
  : outcome Dict * World -> Prop :=
| refused e :
    blank c = true -> call_outcome c env w (Raised e, w)
| served hit t :
    blank c = false ->
    cache_of w !! cache_key c = Some {| data := hit; timestamp := t |} ->
    clock env (clock_reads w) - t <= ttl ->
    dict_truthy hit = true ->
    cache_of (looked_up (cache_key c) env w) = cache_of w ->
    call_outcome c env w (Returned hit, looked_up (cache_key c) env w)
| failed e :
    blank c = false ->
    call_outcome c env w
      (Raised e, sent (request_of (self w) c) (looked_up (cache_key c) env w))
| fetched_and_stored data p :
    blank c = false ->
    (let w2 := sent (request_of (self w) c) (looked_up (cache_key c) env w) in
     _process_weather_data data env w2 = (Returned p, tick w2)) ->
    call_outcome c env w
      (Returned p,
       stored (cache_key c) p env
         (tick (sent (request_of (self w) c)
                  (looked_up (cache_key c) env w)))).

(** The request of the location service. *)
Definition location_request : request :=
  {| url := "https://ipinfo.io/json"; params := [];
     request_timeout := 10 |}.

(** The number of occurrences of a character in a string. *)
Fixpoint count (sep : ascii) (s : string) : nat :=
  match s with
  | EmptyString => 0
  | String c s' => (if Ascii.eqb c sep then 1 else 0) + count sep s'
  end.

(** The float 0.0. *)
Definition zero : PyFloat.float := S754_zero false.
(** * Properties *)

(** ** Text *)

Example lower_London : PyStr.lower "London" = "london".
Proof. reflexivity. Qed.

Example strip_blank : PyStr.strip "  	 " = "".
Proof. reflexivity. Qed.

Example strip_inner : PyStr.strip "  New York " = "New York".
Proof. reflexivity. Qed.

Example title_clouds : PyStr.title "broken clouds" = "Broken Clouds".
Proof. reflexivity. Qed.


(** ** The cache operations *)

Section Cache.

Variable env : Env.

Lemma cache_data_run w key value :
  _cache_data key value env w =
  (Returned tt,
   {| self := {| api_key := api_key (self w); base_url := base_url (self w);
                 timeout := timeout (self w); units := units (self w);
                 _cache := <[key := {| data := value;
                                       timestamp := clock env (clock_reads w) |}]>
                             (_cache (self w)) |};
      clock_reads := S (clock_reads w);
      requests_sent := requests_sent w;
      log := log w ++ [Call_cache_data key value] |}).
Proof. reflexivity. Qed.

Lemma get_cached_data_absent w key :
  cache_of w !! key = None ->
  _get_cached_data key env w =
  (Returned None,
   {| self := self w; clock_reads := clock_reads w;
      requests_sent := requests_sent w;
      log := log w ++ [Call_get_cached_data key] |}).
Proof.
  unfold cache_of. intros Hk.
  unfold _get_cached_data, bind, emit, get_self. cbn. now rewrite Hk.
Qed.

Lemma get_cached_data_stale w key entry :
  cache_of w !! key = Some entry ->
  ttl < clock env (clock_reads w) - timestamp entry ->
  _get_cached_data key env w =
  (Returned None,
   {| self := {| api_key := api_key (self w); base_url := base_url (self w);
                 timeout := timeout (self w); units := units (self w);
                 _cache := delete key (_cache (self w)) |};
      clock_reads := S (clock_reads w);
      requests_sent := requests_sent w;
      log := log w ++ [Call_get_cached_data key] |}).
Proof.
  unfold cache_of, ttl. intros Hk Hage.
  unfold _get_cached_data, bind, emit, get_self. cbn. rewrite Hk. cbn.
  apply Z.ltb_lt in Hage. now rewrite Hage.
Qed.

Lemma get_cached_data_fresh w key entry :
  cache_of w !! key = Some entry ->
  clock env (clock_reads w) - timestamp entry <= ttl ->
  _get_cached_data key env w =
  (Returned (Some (data entry)),
   {| self := self w; clock_reads := S (clock_reads w);
      requests_sent := requests_sent w;
      log := log w ++ [Call_get_cached_data key] |}).
Proof.
  unfold cache_of, ttl. intros Hk Hage.
  unfold _get_cached_data, bind, emit, get_self. cbn. rewrite Hk. cbn.
  apply Z.ltb_ge in Hage. now rewrite Hage.
Qed.

(** C1.  A lookup of [key] at the clock reading [now]: a miss when the key
    is absent; a miss that deletes the entry when [now - storedAt] exceeds
    300 seconds; otherwise a hit with the stored value.  The entries under
    other keys are never touched, a hit or a miss on an absent key leaves
    the whole cache as it was, and the other attributes of the instance
    stay the same. *)
Theorem get_cached_data_spec w key :
  let now := clock env (clock_reads w) in
  let r := fst (_get_cached_data key env w) in
  let w' := snd (_get_cached_data key env w) in
  (cache_of w !! key = None ->
     r = Returned None /\ cache_of w' = cache_of w)
  /\ (forall entry, cache_of w !! key = Some entry ->
        ttl < now - timestamp entry ->
        r = Returned None /\ cache_of w' = delete key (cache_of w))
  /\ (forall entry, cache_of w !! key = Some entry ->
        now - timestamp entry <= ttl ->
        r = Returned (Some (data entry)) /\ cache_of w' = cache_of w
        /\ cache_of w' !! key = Some entry)
  /\ (forall k, k ≠ key -> cache_of w' !! k = cache_of w !! k)
  /\ same_attributes (self w') (self w).
Proof.
  cbv zeta. split; [|split; [|split]].
  - intros Hk. now rewrite (get_cached_data_absent _ _ Hk).
  - intros entry Hk Hage. now rewrite (get_cached_data_stale _ _ _ Hk Hage).
  - intros entry Hk Hage. now rewrite (get_cached_data_fresh _ _ _ Hk Hage).
  - destruct (cache_of w !! key) as [entry|] eqn:Hk.
    + destruct (Z_lt_le_dec ttl (clock env (clock_reads w) - timestamp entry))
        as [Hage|Hage].
      * rewrite (get_cached_data_stale _ _ _ Hk Hage). split.
        -- intros k Hne. unfold cache_of. cbn. now apply lookup_delete_ne.
        -- now unfold same_attributes.
      * rewrite (get_cached_data_fresh _ _ _ Hk Hage).
        now unfold same_attributes.
    + rewrite (get_cached_data_absent _ _ Hk). now unfold same_attributes.
Qed.

(** C2.  A lookup of [key] right after [_cache_data key value] (no more
    than 300 seconds on the clock between the two readings, none at all
    when the lookup is immediate) is a hit with exactly [value]. *)
Theorem get_after_cache_data w key value :
  let w1 := snd (_cache_data key value env w) in
  clock env (S (clock_reads w)) - clock env (clock_reads w) <= ttl ->
  fst (_get_cached_data key env w1) = Returned (Some value).
Proof.
  cbv zeta. intros Hage. rewrite cache_data_run. cbn [snd].
  rewrite (get_cached_data_fresh _ key
             {| data := value; timestamp := clock env (clock_reads w) |}).
  - reflexivity.
  - unfold cache_of. cbn. apply lookup_insert_eq.
  - exact Hage.
Qed.

(** C3.  After [_cache_data key v1] and then [_cache_data key v2] the entry
    of [key] holds [v2] and the time of the second call, the cache being
    what a single store of [v2] at that time would have made of it; a
    lookup within 300 seconds of the second call is a hit with [v2], and no
    lookup returns [v1] when [v1] differs from [v2]. *)
Theorem cache_data_overwrites w key v1 v2 :
  let w1 := snd (_cache_data key v1 env w) in
  let w2 := snd (_cache_data key v2 env w1) in
  let second := clock env (S (clock_reads w)) in
  let r := fst (_get_cached_data key env w2) in
  cache_of w2 = <[key := {| data := v2; timestamp := second |}]> (cache_of w)
  /\ cache_of w2 !! key = Some {| data := v2; timestamp := second |}
  /\ (clock env (S (S (clock_reads w))) - second <= ttl ->
      r = Returned (Some v2))
  /\ (v1 ≠ v2 -> r ≠ Returned (Some v1)).
Proof.
  cbv zeta. rewrite !cache_data_run. cbn [snd].
  set (w2 := Build_World _ _ _ _).
  assert (Hk : cache_of w2 !! key
               = Some {| data := v2;
                         timestamp := clock env (S (clock_reads w)) |}).
  { unfold cache_of, w2. cbn. apply lookup_insert_eq. }
  split; [|split; [|split]].
  - unfold cache_of, w2. cbn. apply insert_insert_eq.
  - exact Hk.
  - intros Hage. now rewrite (get_cached_data_fresh _ _ _ Hk Hage).
  - intros Hne.
    destruct (Z_lt_le_dec ttl (clock env (clock_reads w2)
                               - clock env (S (clock_reads w)))) as [Hage|Hage].
    + rewrite (get_cached_data_stale _ _ _ Hk Hage). discriminate.
    + rewrite (get_cached_data_fresh _ _ _ Hk Hage). cbn. congruence.
Qed.

Lemma cache_all_size entries : forall w,
  NoDup entries.*1 ->
  (forall k, k ∈ entries.*1 -> cache_of w !! k = None) ->
  size (cache_of (snd (cache_all entries env w)))
  = (size (cache_of w) + length entries)%nat.
Proof.
  induction entries as [|[key value] rest IH]; intros w Hnd Hfresh.
  - cbn. lia.
  - cbn [cache_all]. unfold bind at 1. rewrite cache_data_run.
    cbn [fmap list_fmap fst] in Hnd. apply NoDup_cons in Hnd as [Hnotin Hnd].
    rewrite IH.
    + unfold cache_of at 1. cbn [self _cache].
      rewrite map_size_insert_None.
      * cbn [length]. unfold cache_of. lia.
      * apply Hfresh. cbn. left.
    + exact Hnd.
    + intros k Hk. unfold cache_of. cbn [self _cache].
      rewrite lookup_insert_ne.
      * apply Hfresh. cbn. now right.
      * intros ->. contradiction.
Qed.

(** C8.  [_cache_data key value] leaves the entry of every other key as it
    is and removes none; storing entries under [n] distinct new keys makes
    the cache [n] entries larger, however large [n] is: no entry is dropped
    to keep within [MAX_CACHE_SIZE]. *)
Theorem cache_data_frame :
  (forall w key value k,
      k ≠ key ->
      cache_of (snd (_cache_data key value env w)) !! k = cache_of w !! k)
  /\ (forall w key value k,
      is_Some (cache_of w !! k) ->
      is_Some (cache_of (snd (_cache_data key value env w)) !! k))
  /\ (forall w entries,
      NoDup entries.*1 ->
      (forall k, k ∈ entries.*1 -> cache_of w !! k = None) ->
      size (cache_of (snd (cache_all entries env w)))
      = (size (cache_of w) + length entries)%nat).
Proof.
  split; [|split].
  - intros w key value k Hne. rewrite cache_data_run. unfold cache_of. cbn.
    now apply lookup_insert_ne.
  - intros w key value k Hk. rewrite cache_data_run. unfold cache_of. cbn.
    destruct (decide (key = k)) as [->|Hne].
    + rewrite lookup_insert_eq. eauto.
    + now rewrite lookup_insert_ne.
  - intros w entries. apply cache_all_size.
Qed.

End Cache.

(** *** The scenarios of the specification, run on the model *)

Section CacheScenarios.

Import Samples.

(** TTL of 300 seconds: stored at second 0, a hit at second 299, a miss that
  empties the cache at second 301; a lookup of another key changes nothing. *)
Lemma get_cached_data_spec_witness :
let env299 := offline [at_second 0; at_second 299] in
let env301 := offline [at_second 0; at_second 301] in
let stored env := snd (_cache_data "city_london" W1 env (fresh_world env)) in
fst (_get_cached_data "city_paris" env299 (stored env299)) = Returned None
/\ fst (_get_cached_data "city_london" env299 (stored env299)) = Returned (Some W1)
/\ cache_of (snd (_get_cached_data "city_london" env299 (stored env299)))
   = cache_of (stored env299)
/\ fst (_get_cached_data "city_london" env301 (stored env301)) = Returned None
/\ cache_of (snd (_get_cached_data "city_london" env301 (stored env301))) = ∅
/\ cache_of (snd (_get_cached_data "city_paris" env301 (stored env301))) !! "city_london"
   = Some {| data := W1; timestamp := at_second 0 |}.
Proof.
intros env299 env301 stored.
pose (entry := {| data := W1; timestamp := at_second 0 |}).
destruct (get_cached_data_spec env299 (stored env299) "city_paris")
  as (Habsent & _ & _ & _ & _).
destruct (get_cached_data_spec env299 (stored env299) "city_london")
  as (_ & _ & Hfresh & _ & _).
destruct (get_cached_data_spec env301 (stored env301) "city_london")
  as (_ & Hstale & _ & _ & _).
destruct (get_cached_data_spec env301 (stored env301) "city_paris")
  as (_ & _ & _ & Hother & _).
destruct Habsent as [Ha _]; [reflexivity|].
destruct (Hfresh entry) as (Hf1 & Hf2 & _); [reflexivity | vm_compute; discriminate |].
destruct (Hstale entry) as (Hs1 & Hs2); [reflexivity | reflexivity |].
refine (conj Ha (conj Hf1 (conj Hf2 (conj Hs1 (conj _ _))))).
- rewrite Hs2. reflexivity.
- rewrite (Hother "city_london"); [reflexivity | discriminate].
Defined.
(** A lookup at the very clock reading of the store. *)
Lemma get_after_cache_data_witness :
let env := offline [at_second 0; at_second 0] in
clock env 1 - clock env 0 <= ttl
/\ fst (_get_cached_data "city_london" env
          (snd (_cache_data "city_london" W1 env (fresh_world env))))
   = Returned (Some W1).
Proof.
intros env.
assert (H : clock env 1 - clock env 0 <= ttl) by (vm_compute; discriminate).
split; [exact H|].
exact (get_after_cache_data env (fresh_world env) "city_london" W1 H).
Defined.

Lemma W1_W2 : W1 ≠ W2.
Proof.
intros H. apply (f_equal (fun d : Dict => d !! "city")) in H.
vm_compute in H. discriminate.
Qed.

(** Two stores under one key, at seconds 0 and 10, and a lookup at second 20. *)
Lemma cache_data_overwrites_witness :
let env := offline [at_second 0; at_second 10; at_second 20] in
let w2 := snd (_cache_data "city_london" W2 env
                 (snd (_cache_data "city_london" W1 env (fresh_world env)))) in
cache_of w2 !! "city_london" = Some {| data := W2; timestamp := at_second 10 |}
/\ fst (_get_cached_data "city_london" env w2) = Returned (Some W2)
/\ fst (_get_cached_data "city_london" env w2) ≠ Returned (Some W1).
Proof.
intros env w2.
destruct (cache_data_overwrites env (fresh_world env) "city_london" W1 W2)
  as (_ & Hentry & Hhit & Hnever).
refine (conj Hentry (conj (Hhit _) (Hnever W1_W2))).
vm_compute; discriminate.
Defined.

(** 101 stores under distinct keys: 101 entries, one more than
  [MAX_CACHE_SIZE]. *)
Lemma cache_data_frame_witness :
let env := offline [at_second 0] in
size (cache_of (snd (cache_all many_entries env (fresh_world env)))) = 101%nat
/\ settings.MAX_CACHE_SIZE settings.CACHE_CONFIG = 100
/\ cache_of (snd (_cache_data "city_paris" W2 env
                    (snd (_cache_data "city_london" W1 env (fresh_world env)))))
     !! "city_london"
   = Some {| data := W1; timestamp := at_second 0 |}.
Proof.
intros env.
destruct (cache_data_frame env) as (Hother & _ & Hsize).
split; [|split; [reflexivity|]].
- rewrite Hsize.
  + reflexivity.
  + apply (bool_decide_unpack _). vm_compute. reflexivity.
  + intros k _. apply lookup_empty.
- rewrite Hother; [reflexivity | discriminate].
Defined.

End CacheScenarios.

(** ** The two public methods *)

Lemma bind_lift {A B} (r : Exn + A) (k : A -> M B) env w :
  bind (lift r) k env w
  = match r with inl e => (Raised e, w) | inr a => k a env w end.
Proof. now destruct r. Qed.

(** [_process_weather_data] reads the clock and nothing else, and what it
    returns is never an empty dictionary. *)
Lemma process_weather_data_world raw env w :
  (self (snd (_process_weather_data raw env w)) = self w
   /\ log (snd (_process_weather_data raw env w)) = log w
   /\ requests_sent (snd (_process_weather_data raw env w)) = requests_sent w)
  /\ forall d, fst (_process_weather_data raw env w) = Returned d ->
               dict_truthy d = true.
Proof.
  unfold _process_weather_data.
  repeat (rewrite bind_lift;
          match goal with
          | |- context [match ?r with inl _ => _ | inr _ => _ end] =>
              destruct r; [cbn; split; [auto | discriminate] |]
          end).
  cbn. split; [auto|]. intros d [= <-].
  unfold dict_truthy. apply negb_true_iff, bool_decide_eq_false.
  apply insert_non_empty.
Qed.

Lemma get_cached_data_returns env w key :
  exists o w1,
    _get_cached_data key env w = (Returned o, w1)
    /\ log w1 = (log w ++ [Call_get_cached_data key])%list
    /\ requests_sent w1 = requests_sent w
    /\ same_attributes (self w1) (self w).
Proof.
  destruct (cache_of w !! key) as [entry|] eqn:Hk.
  - destruct (Z_lt_le_dec ttl (clock env (clock_reads w) - timestamp entry))
      as [Hage|Hage].
    + rewrite (get_cached_data_stale _ _ _ _ Hk Hage).
      eexists _, _. split; [reflexivity|]. cbn. now unfold same_attributes.
    + rewrite (get_cached_data_fresh _ _ _ _ Hk Hage).
      eexists _, _. split; [reflexivity|]. cbn. now unfold same_attributes.
  - rewrite (get_cached_data_absent _ _ _ Hk).
    eexists _, _. split; [reflexivity|]. cbn. now unfold same_attributes.
Qed.

(** The request was made and an exception left the [try] statement: nothing
    was stored, whichever clause caught it. *)
Ltac raised_after_request :=
  unfold fetched; cbn; eexists; split; [reflexivity|];
  split; [now unfold same_attributes|];
  split; [reflexivity|]; split; [reflexivity|]; discriminate.

Ltac caught e :=
  unfold bind, raise; cbn;
  let c := fresh "c" in
  destruct e as [? ?|c ?| | | | | |];
  [raised_after_request
  |try (destruct (isinstance_Timeout c);
        [|destruct (isinstance_ConnectionError c)]); raised_after_request
  |raised_after_request ..].

(** The answer was processed in the world [w2] the request left. *)
Ltac processed data env w1 :=
  unfold bind at 1;
  match goal with
  | |- context [_process_weather_data data env ?w2] =>
      let Hself := fresh "Hself" in
      let Hlog := fresh "Hlog" in
      let Hsent := fresh "Hsent" in
      let Htruthy := fresh "Htruthy" in
      let d := fresh "d" in
      let e := fresh "e" in
      let c := fresh "c" in
      destruct (process_weather_data_world data env w2)
        as [(Hself & Hlog & Hsent) Htruthy];
      destruct (_process_weather_data data env w2) as [[d|e] ?];
      cbn [fst snd] in *;
      [ unfold bind at 1; rewrite cache_data_run; unfold fetched; cbn;
        eexists; split; [now rewrite Hsent|];
        split; [rewrite Hself; now unfold same_attributes|];
        eexists; split; [unfold cache_of; rewrite Hself; reflexivity|];
        split; [rewrite Hlog; cbn; now rewrite <- app_assoc|];
        now apply Htruthy
      | destruct e as [? ?|c ?| | | | | |];
        try (destruct (isinstance_Timeout c);
             [|destruct (isinstance_ConnectionError c)]);
        unfold fetched, raise; cbn [fst snd]; eexists;
        (split; [now rewrite Hsent|]);
        (split; [rewrite Hself; now unfold same_attributes|]);
        (split; [unfold cache_of; now rewrite Hself|]);
        (split; [rewrite Hlog; reflexivity|]); discriminate ]
  end.

(** The body after the lookup, from the request on, in the world [w1]. *)
Ltac after_lookup env w1 :=
  cbv beta iota;
  unfold bind at 1; unfold get_self at 1; cbv beta iota;
  unfold try_except, requests_get;
  unfold bind at 1; unfold bind at 1; unfold emit at 1; cbv beta iota;
  cbn [self clock_reads requests_sent log];
  let e := fresh "e" in
  let resp := fresh "resp" in
  let data := fresh "data" in
  let cod := fresh "cod" in
  let msg := fresh "msg" in
  match goal with |- context [network env ?n ?r] =>
    destruct (network env n r) as [e|resp] end;
  [caught e|];
  unfold bind at 1; unfold call_raise_for_status;
  destruct (raise_for_status resp) as [e|];
  [caught e|];
  unfold ret at 1; cbv beta iota;
  rewrite bind_lift; destruct (json resp) as [e|data];
  [caught e|];
  lazymatch goal with
  | |- context [get data "cod" PNone] =>
      rewrite bind_lift; destruct (get data "cod" PNone) as [e|cod];
      [caught e|];
      destruct (eq_int cod 200);
      [processed data env w1|];
      rewrite bind_lift;
      destruct (get data "message" (PStr "Unknown error")) as [e|msg];
      [caught e|raised_after_request]
  | |- _ => processed data env w1
  end.

Lemma get_weather_by_city_run env w city :
  PyStr.truthy (PyStr.strip city) = true ->
  run_shape (city_cache_key city) w
    (_get_cached_data (city_cache_key city) env w)
    (get_weather_by_city city env w).
Proof.
  intros Hcity. unfold run_shape.
  destruct (get_cached_data_returns env w (city_cache_key city))
    as (o & w1 & Hrun & _).
  exists o, w1. split; [exact Hrun|].
  destruct o as [hit|]; cbn [truthy];
    [destruct (dict_truthy hit) eqn:Hhit; [exists hit; split; [reflexivity|]|]|];
    unfold get_weather_by_city; rewrite Hcity; cbn [negb];
    unfold bind at 1; rewrite Hrun; unfold return_if_truthy;
    rewrite ?Hhit; [reflexivity| |]; after_lookup env w1.
Qed.

Lemma get_weather_by_coordinates_run env w lat lon :
  run_shape (coords_cache_key lat lon) w
    (_get_cached_data (coords_cache_key lat lon) env w)
    (get_weather_by_coordinates lat lon env w).
Proof.
  unfold run_shape.
  destruct (get_cached_data_returns env w (coords_cache_key lat lon))
    as (o & w1 & Hrun & _).
  exists o, w1. split; [exact Hrun|].
  destruct o as [hit|]; cbn [truthy];
    [destruct (dict_truthy hit) eqn:Hhit; [exists hit; split; [reflexivity|]|]|];
    unfold get_weather_by_coordinates;
    unfold bind at 1; rewrite Hrun; unfold return_if_truthy;
    rewrite ?Hhit; [reflexivity| |]; after_lookup env w1.
Qed.

(** *** Computations that do not read the cache settings *)


















(** *** Blank city names *)

Lemma lstrip_only_whitespace s : only_whitespace s = true -> PyStr.lstrip s = "".
Proof.
  induction s as [|c s IH]; cbn; [reflexivity|].
  intros [Hc Hs]%andb_true_iff. rewrite Hc. now apply IH.
Qed.

Lemma strip_only_whitespace s : only_whitespace s = true -> PyStr.strip s = "".
Proof. intros H. unfold PyStr.strip. now rewrite lstrip_only_whitespace. Qed.

Lemma rstrip_empty s : PyStr.rstrip s = "" -> only_whitespace s = true.
Proof.
  induction s as [|c s IH]; cbn; [reflexivity|].
  destruct (PyStr.rstrip s); [|discriminate].
  destruct (PyStr.isspace c); [|discriminate]. intros _. now apply IH.
Qed.

Lemma lstrip_head s :
  PyStr.lstrip s = "" \/
  exists c t, PyStr.lstrip s = String c t /\ PyStr.isspace c = false.
Proof.
  induction s as [|c s IH]; cbn; [now left|].
  destruct (PyStr.isspace c) eqn:Hc; [exact IH|]. right. now exists c, s.
Qed.

Lemma lstrip_empty s : PyStr.lstrip s = "" -> only_whitespace s = true.
Proof.
  induction s as [|c s IH]; cbn; [reflexivity|].
  destruct (PyStr.isspace c); [exact IH | discriminate].
Qed.

Lemma strip_empty s : PyStr.strip s = "" -> only_whitespace s = true.
Proof.
  unfold PyStr.strip. intros H%rstrip_empty.
  destruct (lstrip_head s) as [Hs|(c & t & Hs & Hc)].
  - now apply lstrip_empty.
  - rewrite Hs in H. cbn in H. now rewrite Hc in H.
Qed.

(** C9.  A city name made of white space only (or empty) is refused with
    "City name cannot be empty", and the world is exactly as before: no
    lookup, no store, no request, not even a reading of the clock. *)
Theorem blank_city_rejected env w city :
  only_whitespace city = true ->
  get_weather_by_city city env w
  = (Raised (WeatherAPIError "City name cannot be empty" None), w).
Proof.
  intros H. unfold get_weather_by_city.
  now rewrite (strip_only_whitespace _ H).
Qed.

Lemma nonblank_truthy city :
  only_whitespace city = false -> PyStr.truthy (PyStr.strip city) = true.
Proof.
  intros H. destruct (PyStr.strip city) eqn:Hs; [|reflexivity].
  apply strip_empty in Hs. congruence.
Qed.

(** *** Calls logged by a run *)

Lemma calls_app w w' l : log w' = (log w ++ l)%list -> calls w w' = l.
Proof. intros H. unfold calls. rewrite H. apply drop_app_length. Qed.

Lemma fetched_calls key w w1 run :
  log w1 = (log w ++ [Call_get_cached_data key])%list ->
  fetched key w1 run ->
  exists req rest,
    calls w (snd run) = Call_get_cached_data key :: Call_requests_get req :: rest
    /\ forallb (fun ev => negb (is_store ev)) rest
       = match fst run with Returned _ => false | Raised _ => true end.
Proof.
  intros Hw1 (req & _ & _ & H). destruct (fst run) as [d|e].
  - destruct H as (t & _ & Hlog & _). exists req, [Call_cache_data key d].
    split; [|reflexivity]. apply calls_app. rewrite Hlog, Hw1.
    now rewrite <- app_assoc.
  - destruct H as (_ & Hlog & _). exists req, []. split; [|reflexivity].
    apply calls_app. rewrite Hlog, Hw1. now rewrite <- app_assoc.
Qed.


(** *** Consequences of the shape of a run *)

Section Shape.

Variables (env : Env) (w : World) (key : string) (run : outcome Dict * World).
Hypothesis Hshape : run_shape key w (_get_cached_data key env w) run.


Lemma shape_falsy entry :
  cache_of w !! key = Some entry ->
  clock env (clock_reads w) - timestamp entry <= ttl ->
  dict_truthy (data entry) = false ->
  fetched key (snd (_get_cached_data key env w)) run
  /\ without_request w run = false.
Proof.
  intros Hk Hage Hfalsy.
  destruct Hshape as (o & w1 & Hlookup & H).
  pose proof (get_cached_data_fresh env w key entry Hk Hage) as Hrun.
  rewrite Hlookup in Hrun. injection Hrun as -> ->.
  cbn [truthy] in H. rewrite Hfalsy in H. rewrite Hlookup. cbn [snd].
  split; [exact H|].
  match type of H with fetched _ ?w1 _ =>
    destruct (fetched_calls key w w1 run eq_refl H) as (req & rest & Hcalls & _)
  end.
  unfold without_request. now rewrite Hcalls.
Qed.

Lemma shape_served :
  without_request w run = true ->
  exists entry,
    cache_of w !! key = Some entry
    /\ clock env (clock_reads w) - timestamp entry <= ttl
    /\ dict_truthy (data entry) = true
    /\ fst run = Returned (data entry)
    /\ cache_of (snd run) = cache_of w.
Proof.
  intros Hquiet.
  destruct Hshape as (o & w1 & Hlookup & H).
  destruct (get_cached_data_returns env w key) as (o' & w1' & Hrun & Hlog & _).
  rewrite Hlookup in Hrun. injection Hrun as <- <-.
  destruct (truthy o) eqn:Ho.
  - destruct H as (hit & -> & ->). cbn [truthy] in Ho.
    destruct (cache_of w !! key) as [entry|] eqn:Hk.
    + destruct (Z_lt_le_dec ttl (clock env (clock_reads w) - timestamp entry))
        as [Hage|Hage].
      * rewrite (get_cached_data_stale env w key entry Hk Hage) in Hlookup.
        discriminate.
      * rewrite (get_cached_data_fresh env w key entry Hk Hage) in Hlookup.
        injection Hlookup as <- <-. exists entry. now rewrite Ho.
    + rewrite (get_cached_data_absent env w key Hk) in Hlookup. discriminate.
  - destruct (fetched_calls key w w1 run Hlog H) as (req & rest & Hcalls & _).
    unfold without_request in Hquiet. rewrite Hcalls in Hquiet. discriminate.
Qed.


End Shape.


(** *** Falsy cached values *)

(** C10.  A fresh entry whose value is falsy (an empty dictionary) does not
    stop the request: both methods go on to the fetch as after a miss.
    Conversely, a call that made no request found a fresh entry with a truthy
    value and returned that value. *)
Theorem falsy_entry_refetched env w :
  (forall city entry,
      only_whitespace city = false ->
      cache_of w !! city_cache_key city = Some entry ->
      clock env (clock_reads w) - timestamp entry <= ttl ->
      dict_truthy (data entry) = false ->
      fetched (city_cache_key city)
        (snd (_get_cached_data (city_cache_key city) env w))
        (get_weather_by_city city env w)
      /\ without_request w (get_weather_by_city city env w) = false)
  /\ (forall lat lon entry,
      cache_of w !! coords_cache_key lat lon = Some entry ->
      clock env (clock_reads w) - timestamp entry <= ttl ->
      dict_truthy (data entry) = false ->
      fetched (coords_cache_key lat lon)
        (snd (_get_cached_data (coords_cache_key lat lon) env w))
        (get_weather_by_coordinates lat lon env w)
      /\ without_request w (get_weather_by_coordinates lat lon env w) = false)
  /\ (forall city,
      only_whitespace city = false ->
      without_request w (get_weather_by_city city env w) = true ->
      exists entry,
        cache_of w !! city_cache_key city = Some entry
        /\ clock env (clock_reads w) - timestamp entry <= ttl
        /\ dict_truthy (data entry) = true
        /\ fst (get_weather_by_city city env w) = Returned (data entry))
  /\ (forall lat lon,
      without_request w (get_weather_by_coordinates lat lon env w) = true ->
      exists entry,
        cache_of w !! coords_cache_key lat lon = Some entry
        /\ clock env (clock_reads w) - timestamp entry <= ttl
        /\ dict_truthy (data entry) = true
        /\ fst (get_weather_by_coordinates lat lon env w) = Returned (data entry)).
Proof.
  split; [|split; [|split]].
  - intros city entry Hcity. apply shape_falsy.
    now apply get_weather_by_city_run, nonblank_truthy.
  - intros lat lon entry. apply shape_falsy.
    apply get_weather_by_coordinates_run.
  - intros city Hcity Hquiet.
    destruct (shape_served env w (city_cache_key city) _
                (get_weather_by_city_run env w city (nonblank_truthy _ Hcity))
                Hquiet) as (entry & ? & ? & ? & ? & _).
    now exists entry.
  - intros lat lon Hquiet.
    destruct (shape_served env w (coords_cache_key lat lon) _
                (get_weather_by_coordinates_run env w lat lon) Hquiet)
      as (entry & ? & ? & ? & ? & _).
    now exists entry.
Qed.

(** *** Failed fetches *)


(** *** The cache settings *)


(** *** The methods on sample worlds *)

Section MethodScenarios.

Import Samples Scenarios.

(** A blank and an empty city name. *)
Lemma blank_city_rejected_witness :
  only_whitespace "   " = true
  /\ get_weather_by_city "   " disabled (london_at_0 disabled)
     = (Raised (WeatherAPIError "City name cannot be empty" None),
        london_at_0 disabled)
  /\ fst (get_weather_by_city "" disabled (london_at_0 disabled))
     = Raised (WeatherAPIError "City name cannot be empty" None).
Proof.
  split; [reflexivity|]. split.
  - apply (blank_city_rejected disabled (london_at_0 disabled) "   ").
    reflexivity.
  - rewrite (blank_city_rejected disabled (london_at_0 disabled) "");
      reflexivity.
Defined.

(** An empty dictionary stored at second 0 and asked for at second 1, and a
    truthy one for comparison. *)
Lemma falsy_entry_refetched_witness :
  let env := disabled in
  without_request (empty_at_0 env)
    (get_weather_by_city "London" env (empty_at_0 env)) = false
  /\ (exists entry,
        cache_of (london_at_0 env) !! "city_london" = Some entry
        /\ fst (get_weather_by_city "London" env (london_at_0 env))
           = Returned (data entry)).
Proof.
  intros env.
  destruct (falsy_entry_refetched env (empty_at_0 env)) as (Hfalsy & _ & _ & _).
  destruct (falsy_entry_refetched env (london_at_0 env)) as (_ & _ & Hserved & _).
  split.
  - refine (proj2 (Hfalsy "London" {| data := ∅; timestamp := at_second 0 |}
                     _ _ _ _)).
    + reflexivity.
    + reflexivity.
    + vm_compute. discriminate.
    + reflexivity.
  - destruct (Hserved "London") as (entry & Hk & _ & _ & Hr).
    + reflexivity.
    + reflexivity.
    + exists entry. split; assumption.
Defined.





End MethodScenarios.

(** ** The cache keys *)









(** *** The characters of a float's text *)

Lemma all_chars_app test a b :
  all_chars test (a ++ b) = all_chars test a && all_chars test b.
Proof.
  induction a as [|c a IH]; [reflexivity|].
  change (test c && all_chars test (a ++ b)
          = test c && all_chars test a && all_chars test b).
  rewrite IH. apply andb_assoc.
Qed.

Lemma all_chars_substring test s : forall n m,
  all_chars test s = true -> all_chars test (String.substring n m s) = true.
Proof.
  induction s as [|c s IH]; intros n m H.
  - now destruct n, m.
  - cbn in H. apply andb_true_iff in H as [Hc Hs].
    destruct n as [|n]; [destruct m as [|m]; [reflexivity|]|].
    + cbn. rewrite Hc. now apply IH.
    + cbn. now apply IH.
Qed.

Lemma all_chars_zeros n : all_chars float_char (PyFloat.zeros n) = true.
Proof. induction n as [|n IH]; [reflexivity|]. cbn. exact IH. Qed.

Lemma all_chars_uint d :
  all_chars float_char (NilEmpty.string_of_uint d) = true.
Proof. induction d; cbn; auto. Qed.

Lemma all_chars_digits n : all_chars float_char (PyFloat.digits n) = true.
Proof.
  unfold PyFloat.digits, NilZero.string_of_uint.
  destruct (N.to_uint (Z.to_N n)); try reflexivity; apply all_chars_uint.
Qed.

Lemma all_chars_rstrip_zeros s :
  all_chars float_char s = true ->
  all_chars float_char (PyFloat.rstrip_zeros s) = true.
Proof.
  induction s as [|c s IH]; [reflexivity|].
  cbn [all_chars PyFloat.rstrip_zeros].
  intros [Hc Hs]%andb_true_iff. specialize (IH Hs).
  destruct (PyFloat.rstrip_zeros s).
  - destruct (Ascii.eqb c "0"); [reflexivity|].
    cbn [all_chars]. now rewrite Hc.
  - cbn [all_chars] in *. now rewrite Hc.
Qed.

Lemma all_chars_exponent_text x :
  all_chars float_char (PyFloat.exponent_text x) = true.
Proof.
  unfold PyFloat.exponent_text. rewrite !all_chars_app, all_chars_digits.
  now destruct (Z.ltb x 0), (Z.ltb (Z.abs x) 10).
Qed.

Lemma all_chars_repr_finite ds decpt :
  all_chars float_char ds = true ->
  all_chars float_char (PyFloat.repr_finite ds decpt) = true.
Proof.
  intros Hds. unfold PyFloat.repr_finite.
  repeat match goal with
         | |- context [if ?b then _ else _] => destruct b
         end;
    rewrite ?all_chars_app, ?all_chars_zeros, ?all_chars_exponent_text,
      ?all_chars_substring, ?Hds by exact Hds;
    reflexivity.
Qed.

Lemma all_chars_repr x : all_chars float_char (PyFloat.repr x) = true.
Proof.
  destruct x as [[]|[]| |s m e]; try reflexivity.
  unfold PyFloat.repr, PyFloat.shortest.
  destruct (PyFloat.shortest_from _ _ _ _ _) as [c s0].
  rewrite all_chars_app, all_chars_repr_finite.
  - now destruct s.
  - apply all_chars_rstrip_zeros, all_chars_digits.
Qed.

(** Two texts of floats joined by an underscore come apart in one way only. *)
Lemma split_at_underscore a : forall a' b b',
  all_chars float_char a = true ->
  all_chars float_char a' = true ->
  a ++ "_" ++ b = a' ++ "_" ++ b' ->
  a = a' /\ b = b'.
Proof.
  induction a as [|c a IH]; intros [|c' a'] b b' Ha Ha' H;
    cbn [all_chars append] in *.
  - now injection H.
  - injection H as <- _. discriminate.
  - injection H as -> _. discriminate.
  - apply andb_true_iff in Ha as [_ Ha], Ha' as [_ Ha'].
    injection H as -> H. destruct (IH a' b b' Ha Ha' H) as [-> ->]. easy.
Qed.

(** C6, as the code has it.  The key of a coordinate lookup is the tag
    "coords_", the text of the latitude, an underscore and the text of the
    longitude, each text being Python's [repr] of the float (its shortest
    digits, not a fixed number of them).  The tag is not the city tag, the
    texts are written with digits, sign, point and the letters of an exponent,
    "inf" and "nan" only, and so the key determines both texts. *)
Theorem coords_key_shape lat lon :
  coords_cache_key lat lon
  = "coords_" ++ PyFloat.repr lat ++ "_" ++ PyFloat.repr lon
  /\ (forall rest, coords_cache_key lat lon ≠ "city_" ++ rest)
  /\ all_chars float_char (PyFloat.repr lat) = true
  /\ all_chars float_char (PyFloat.repr lon) = true
  /\ (forall lat' lon',
        coords_cache_key lat lon = coords_cache_key lat' lon' ->
        PyFloat.repr lat = PyFloat.repr lat'
        /\ PyFloat.repr lon = PyFloat.repr lon').
Proof.
  split; [reflexivity|]. split; [discriminate|].
  split; [apply all_chars_repr|]. split; [apply all_chars_repr|].
  intros lat' lon' H. unfold coords_cache_key in H. cbn in H.
  injection H as H.
  now apply split_at_underscore in H; try apply all_chars_repr.
Qed.

Section KeyScenarios.

Import Scenarios.

(** C6, as stated, fails: the texts of 51.5 and of 0.25 have one and two
    decimals; no precision fits both. *)
Lemma coords_key_precision_varies :
  coords_cache_key f51_5 f0_25 = "coords_51.5_0.25"
  /\ ~ exists p, has_precision p f51_5 /\ has_precision p f0_25.
Proof.
  split; [vm_compute; reflexivity|].
  intros (p & H1 & H2). unfold has_precision in H1, H2.
  vm_compute in H1. vm_compute in H2. congruence.
Qed.

(** The same two coordinates, written down in another way. *)
Lemma coords_key_shape_witness :
  coords_cache_key f51_5 f0_25
  = coords_cache_key (PyFloat.of_decimal 515 1) (PyFloat.of_decimal 25 2)
  /\ PyFloat.repr f51_5 = PyFloat.repr (PyFloat.of_decimal 515 1)
  /\ PyFloat.repr f0_25 = PyFloat.repr (PyFloat.of_decimal 25 2).
Proof.
  assert (Hkey : coords_cache_key f51_5 f0_25
                 = coords_cache_key (PyFloat.of_decimal 515 1)
                     (PyFloat.of_decimal 25 2))
    by (vm_compute; reflexivity).
  destruct (coords_key_shape f51_5 f0_25) as (_ & _ & _ & _ & Hsplit).
  exact (conj Hkey (Hsplit _ _ Hkey)).
Defined.

End KeyScenarios.

(** ** The service end to end *)

Section EndToEnd.

Import Samples.

Example repr_samples :
  map PyFloat.repr
    [PyFloat.of_decimal 515 1; PyFloat.of_decimal 25 2;
     PyFloat.of_decimal (-1278) 4; PyFloat.of_decimal 1 5;
     PyFloat.of_Z (10 ^ 16); PyFloat.of_Z 7; S754_zero true; S754_nan]
  = ["51.5"; "0.25"; "-0.1278"; "1e-05"; "1e+16"; "7.0"; "-0.0"; "nan"].
Proof. vm_compute. reflexivity. Qed.

Example round_samples :
  (round (PFloat (PyFloat.of_decimal 125 1)),
   round (PFloat (PyFloat.of_decimal 135 1)),
   round_1 (PFloat (PyFloat.of_decimal 1137 2)))
  = (inr (PInt 12), inr (PInt 14), inr (PFloat (PyFloat.of_decimal 114 1))).
Proof. vm_compute. reflexivity. Qed.

(** A first call for "London" asks the provider and stores the processed
    answer; a second one, for "LONDON" 100 seconds later, is served from the
    cache without a request. *)
Example london_twice :
  let env := online [at_second 0; at_second 1; at_second 100] in
  let first := get_weather_by_city "London" env (fresh_world env) in
  let second := get_weather_by_city "LONDON" env (snd first) in
  fst first = Returned processed_answer
  /\ cache_of (snd first) !! "city_london"
     = Some {| data := processed_answer; timestamp := at_second 1 |}
  /\ fst second = Returned processed_answer
  /\ map is_request (calls (fresh_world env) (snd first)) = [false; true; false]
  /\ calls (snd first) (snd second) = [Call_get_cached_data "city_london"].
Proof. repeat split; vm_compute; reflexivity. Qed.

End EndToEnd.

(** * Further properties *)

(** ** The two methods in direct style *)

Ltac by_handler e :=
  let c := fresh "c" in
  destruct e as [? ?|c ?| | | | | |]; cbn;
  try (destruct (isinstance_Timeout c);
       [|destruct (isinstance_ConnectionError c)]);
  reflexivity.

Ltac fetch_equation env w1 :=
  cbv beta iota;
  unfold bind at 1; unfold get_self at 1; cbv beta iota;
  unfold try_except, requests_get;
  unfold bind at 1; unfold bind at 1; unfold emit at 1; cbv beta iota;
  cbn [self clock_reads requests_sent log];
  let e := fresh "e" in
  let resp := fresh "resp" in
  let data := fresh "data" in
  match goal with |- context [network env ?n ?r] =>
    destruct (network env n r) as [e|resp] end;
  [unfold bind, raise; by_handler e|];
  unfold bind at 1; unfold call_raise_for_status;
  destruct (raise_for_status resp) as [e|];
  [unfold bind, raise; by_handler e|];
  unfold ret at 1; cbv beta iota;
  rewrite bind_lift; destruct (json resp) as [e|data];
  [unfold bind, raise; by_handler e|];
  try (rewrite bind_lift;
       destruct data; try reflexivity; cbn [get];
       match goal with |- context [eq_int ?cod 200] =>
         destruct (eq_int cod 200); [|reflexivity] end);
  unfold handled, process_and_store;
  match goal with |- context [bind (_process_weather_data ?data) ?k env ?w2] =>
    change (bind (_process_weather_data data) k env w2)
      with (match _process_weather_data data env w2 with
            | (Returned a, w') => k a env w'
            | (Raised e, w') => (Raised e, w')
            end);
    let e' := fresh "e" in
    destruct (_process_weather_data data env w2) as [[?|e'] ?];
    [reflexivity | by_handler e']
  end.

Lemma get_weather_by_city_direct env w city :
  PyStr.truthy (PyStr.strip city) = true ->
  get_weather_by_city city env w
  = served_or (city_fetch city)
      (_get_cached_data (city_cache_key city) env w) env.
Proof.
  intros Hcity. unfold get_weather_by_city. rewrite Hcity. cbn [negb].
  unfold bind at 1.
  destruct (_get_cached_data (city_cache_key city) env w) as [[[hit|]|e] w1];
    unfold served_or, return_if_truthy; [destruct (dict_truthy hit)| |];
    try reflexivity;
    unfold city_fetch, answer_to, city_request, sent; fetch_equation env w1.
Qed.

Lemma get_weather_by_coordinates_direct env w lat lon :
  get_weather_by_coordinates lat lon env w
  = served_or (coords_fetch lat lon)
      (_get_cached_data (coords_cache_key lat lon) env w) env.
Proof.
  unfold get_weather_by_coordinates. unfold bind at 1.
  destruct (_get_cached_data (coords_cache_key lat lon) env w)
    as [[[hit|]|e] w1];
    unfold served_or, return_if_truthy; [destruct (dict_truthy hit)| |];
    try reflexivity;
    unfold coords_fetch, answer_to, coords_request, sent, coords_handler;
    fetch_equation env w1.
Qed.

(** ** [_process_weather_data] *)

Lemma bind_lift_inv {A B} (r : Exn + A) (k : A -> M B) env w b w' :
  bind (lift r) k env w = (Returned b, w') ->
  exists a, r = inr a /\ k a env w = (Returned b, w').
Proof. rewrite bind_lift. destruct r as [e|a]; [discriminate|]. eauto. Qed.

Lemma getitem_inr v key x :
  getitem v key = inr x -> exists d, v = PDict d /\ d !! key = Some x.
Proof.
  destruct v; try discriminate. cbn.
  destruct (d !! key) eqn:Hk; [|discriminate]. intros [= <-]. eauto.
Qed.

Lemma get_inr v key dflt x :
  get v key dflt = inr x -> exists d, v = PDict d /\ x = default dflt (d !! key).
Proof. destruct v; try discriminate. cbn. intros [= <-]. eauto. Qed.

Lemma getitem0_inr_dict v d :
  getitem0 v = inr (PDict d) -> exists l, v = PList (PDict d :: l).
Proof.
  destruct v as [| | | |s|l| |]; try discriminate; cbn.
  - destruct s; discriminate.
  - destruct l; [discriminate|]. intros [= ->]. eauto.
Qed.

Lemma round_inr v x :
  round v = inr x -> has_integer (Some v) = true /\ exists n, x = PInt n.
Proof.
  destruct v as [| | |[]| | | |]; try discriminate; cbn; intros [= <-]; eauto.
Qed.

Lemma round_1_inr v x : round_1 v = inr x -> is_number (Some v) = true.
Proof. destruct v; try discriminate; reflexivity. Qed.

Lemma title_inr v x :
  title v = inr x -> exists s, v = PStr s /\ x = PStr (PyStr.title s).
Proof. destruct v; try discriminate. cbn. intros [= <-]. eauto. Qed.

(** Everything a successful run of [_process_weather_data] tells. *)
Ltac invert_processing H :=
  unfold _process_weather_data in H;
  repeat (apply bind_lift_inv in H; destruct H as (? & ? & H));
  cbn in H; injection H as <- <-;
  repeat match goal with
         | H : getitem _ _ = inr _ |- _ =>
             apply getitem_inr in H as (? & ? & ?)
         | H : get _ _ _ = inr _ |- _ => apply get_inr in H as (? & ? & ?)
         | H : title _ = inr _ |- _ => apply title_inr in H as (? & ? & ?)
         end;
  simplify_eq;
  repeat match goal with
         | H1 : ?a = PDict _, H2 : ?a = PDict _ |- _ =>
             rewrite H1 in H2; simplify_eq
         end.


Lemma absent_or_dict_default o d :
  default (PDict ∅) o = PDict d -> absent_or_dict o = true.
Proof. destruct o as [[]|]; cbn; congruence. Qed.

Lemma process_returned_well_formed raw env w d w' :
  _process_weather_data raw env w = (Returned d, w') -> well_formed raw = true.
Proof.
  intros H. invert_processing H.
  match goal with H : getitem0 _ = inr _ |- _ =>
    apply getitem0_inr_dict in H as (? & ->) end.
  repeat match goal with
         | H : round _ = inr _ |- _ => apply round_inr in H as [H _]
         | H : round_1 _ = inr _ |- _ => apply round_1_inr in H
         | H : default (PDict ∅) _ = PDict _ |- _ =>
             apply absent_or_dict_default in H
         end.
  unfold well_formed, weather_ok, main_ok.
  repeat match goal with H : _ !! _ = Some _ |- _ => rewrite H; clear H end.
  cbn [is_str]. rewrite !bool_decide_eq_true_2 by eauto.
  repeat match goal with H : _ = true |- _ => rewrite H; clear H end.
  reflexivity.
Qed.

Lemma well_formed_process_returns raw env w :
  well_formed raw = true ->
  exists d, _process_weather_data raw env w
            = (Returned d,
               {| self := self w; clock_reads := S (clock_reads w);
                  requests_sent := requests_sent w; log := log w |}).
Proof.
  destruct raw as [| | | | | |raw|]; try discriminate.
  unfold well_formed, weather_ok, main_ok.
  destruct (raw !! "weather") as [[| | | | |[|[| | | | | |weather|] rest]| |]|]
    eqn:Hweather; try discriminate.
  destruct (raw !! "main") as [[| | | | | |main|]|] eqn:Hmain;
    try (rewrite andb_false_r; discriminate).
  destruct (weather !! "description") as [[| | | |s| | |]|] eqn:Hdescription;
    try discriminate.
  cbn [is_str andb].
  assert (Hnone : bool_decide (is_Some (@None PyVal)) = false) by reflexivity.
  destruct (weather !! "id") as [weather_id|] eqn:Hid;
    [|rewrite Hnone; discriminate].
  destruct (weather !! "icon") as [icon|] eqn:Hicon;
    [|rewrite Hnone, ?andb_false_r; discriminate].
  destruct (main !! "humidity") as [humidity|] eqn:Hhumidity;
    [|rewrite Hnone, ?andb_false_r; discriminate].
  rewrite !bool_decide_eq_true_2 by eauto. cbn [andb].
  intros H. repeat apply andb_true_iff in H as [H ?].
  unfold _process_weather_data.
  rewrite bind_lift. cbn [getitem]. rewrite Hweather.
  rewrite bind_lift. cbn [getitem0].
  rewrite bind_lift. cbn [getitem]. rewrite Hmain.
  rewrite bind_lift. cbn [get].
  rewrite bind_lift. cbn [get].
  rewrite bind_lift. cbn [get].
  destruct (raw !! "sys") as [[| | | | | |sys|]|]; try discriminate;
    destruct (raw !! "wind") as [[| | | | | |wind|]|]; try discriminate;
    cbn [default];
    (rewrite bind_lift; cbn [get];
     rewrite bind_lift; cbn [getitem];
     destruct (main !! "temp") as [temp|]; [|discriminate];
     rewrite bind_lift;
     destruct (round temp) as [e|temperature] eqn:Hround;
       [destruct temp as [| | |[]| | | |]; discriminate|];
     rewrite bind_lift; cbn [getitem];
     destruct (main !! "feels_like") as [feels|]; [|discriminate];
     rewrite bind_lift;
     destruct (round_1 feels) as [e|feels_like] eqn:Hround1;
       [destruct feels; discriminate|];
     rewrite bind_lift; cbn [getitem]; rewrite Hhumidity;
     rewrite bind_lift; cbn [get];
     rewrite bind_lift; cbn [get];
     rewrite bind_lift; cbn [get];
     rewrite bind_lift; cbn [getitem]; rewrite Hdescription;
     rewrite bind_lift; cbn [title];
     rewrite bind_lift; cbn [getitem]; rewrite Hid;
     rewrite bind_lift; cbn [getitem]; rewrite Hicon;
     eexists; reflexivity).
Qed.

(** X1.  A processed answer has the twelve fields of the display and no
    other; its time stamp is the one reading of the clock that the processing
    made, its temperature an integer and its description a string. *)
Theorem processed_fields raw env w d w' :
  _process_weather_data raw env w = (Returned d, w') ->
  dom d = fields
  /\ d !! "timestamp" = Some (PDateTime (clock env (clock_reads w)))
  /\ (exists n, d !! "temperature" = Some (PInt n))
  /\ (exists s, d !! "description" = Some (PStr s))
  /\ w' = tick w.
Proof.
  intros H. invert_processing H.
  match goal with H : round _ = inr _ |- _ =>
    apply round_inr in H as (_ & n & ->) end.
  split; [|split; [|split; [|split]]].
  - unfold fields. rewrite !dom_insert_L, dom_empty_L. cbn. set_solver.
  - now rewrite !lookup_insert_ne, lookup_insert_eq by done.
  - exists n. now rewrite !lookup_insert_ne, lookup_insert_eq by done.
  - eexists. now rewrite !lookup_insert_ne, lookup_insert_eq by done.
  - reflexivity.
Qed.

(** X2.  In a processed answer the optional members of the raw one are
    copied or replaced by their defaults: the name by "Unknown", the country
    by the empty string, pressure, wind speed and wind direction by 0; the
    humidity is copied as it is. *)
Theorem processed_defaults raw env w d w' :
  _process_weather_data (PDict raw) env w = (Returned d, w') ->
  d !! "city" = Some (default (PStr "Unknown") (raw !! "name"))
  /\ d !! "country"
     = Some (default (PStr "") (member (raw !! "sys") "country"))
  /\ d !! "pressure"
     = Some (default (PInt 0) (member (raw !! "main") "pressure"))
  /\ d !! "wind_speed"
     = Some (default (PInt 0) (member (raw !! "wind") "speed"))
  /\ d !! "wind_direction"
     = Some (default (PInt 0) (member (raw !! "wind") "deg"))
  /\ d !! "humidity" = member (raw !! "main") "humidity".
Proof.
  intros H. invert_processing H.
  repeat match goal with
         | H : _ !! "main" = Some _ |- _ => rewrite H; clear H
         | H : default (PDict ∅) ?o = PDict ?d |- _ =>
             assert (member o = fun key => d !! key)
               as -> by (destruct o as [[]|]; cbn in H;
                         try discriminate; injection H as <-; reflexivity);
             clear H
         end.
  cbn [member].
  repeat split;
    rewrite ?lookup_insert_ne by done; rewrite lookup_insert_eq; congruence.
Qed.

(** X3.  [_process_weather_data] returns exactly on the well-formed answers:
    a dictionary whose "weather" is a list that starts with a dictionary with
    a string "description", an "id" and an "icon", whose "main" is a
    dictionary with a "temp" that has a nearest integer, a numeric
    "feels_like" and a "humidity", and whose "wind" and "sys" are dictionaries
    when they are there.  It then reads the clock once. *)
Theorem process_succeeds_iff raw env w :
  well_formed raw = true
  <-> exists d, _process_weather_data raw env w = (Returned d, tick w).
Proof.
  split.
  - apply well_formed_process_returns.
  - intros [d H]. exact (process_returned_well_formed _ _ _ _ _ H).
Qed.

Lemma process_succeeds_iff_witness :
  well_formed Samples.answer = true
  /\ exists d,
      _process_weather_data Samples.answer (Samples.online [0])
        (Samples.fresh_world (Samples.online [0]))
      = (Returned d, tick (Samples.fresh_world (Samples.online [0]))).
Proof.
  assert (H : well_formed Samples.answer = true) by (vm_compute; reflexivity).
  split; [exact H|].
  exact (proj1 (process_succeeds_iff Samples.answer (Samples.online [0])
                  (Samples.fresh_world (Samples.online [0]))) H).
Defined.

Ltac builtin_from H :=
  unfold getitem, getitem0, get, round, round_1, title in H;
  repeat case_match; simplify_eq; reflexivity.

(** A failure of [_process_weather_data] leaves the world as it was and is
    an exception of the language. *)
Lemma process_raises raw env w e w' :
  _process_weather_data raw env w = (Raised e, w') ->
  w' = w /\ builtin e = true.
Proof.
  intros H. unfold _process_weather_data in H.
  repeat (rewrite bind_lift in H;
          match type of H with
          | context [match ?r with inl _ => _ | inr _ => _ end] =>
              let Hr := fresh "Hr" in
              destruct r eqn:Hr;
              [injection H as <- <-; split; [reflexivity | builtin_from Hr]|]
          end).
  discriminate.
Qed.

(** X4.  When [_process_weather_data] raises, it has changed nothing, not
    even read the clock, and the exception is one of the language
    ([KeyError], [IndexError], [TypeError], [AttributeError], [ValueError],
    [OverflowError]), never [WeatherAPIError].  An answer without "weather"
    or "main" raises [KeyError], one with an empty "weather" list
    [IndexError]. *)
Theorem process_failure env w :
  (forall raw e w',
      _process_weather_data raw env w = (Raised e, w') ->
      w' = w /\ builtin e = true)
  /\ (forall raw,
      raw !! "weather" = None ->
      _process_weather_data (PDict raw) env w = (Raised KeyError, w))
  /\ (forall raw,
      raw !! "weather" = Some (PList []) ->
      _process_weather_data (PDict raw) env w = (Raised IndexError, w))
  /\ (forall raw first rest,
      raw !! "weather" = Some (PList (first :: rest)) ->
      raw !! "main" = None ->
      _process_weather_data (PDict raw) env w = (Raised KeyError, w)).
Proof.
  split; [|split; [|split]].
  - intros raw e w'. apply process_raises.
  - intros raw H. unfold _process_weather_data. rewrite bind_lift. cbn.
    now rewrite H.
  - intros raw H. unfold _process_weather_data. rewrite bind_lift. cbn.
    rewrite H. now rewrite bind_lift.
  - intros raw first rest Hweather Hmain. unfold _process_weather_data.
    rewrite bind_lift. cbn [getitem]. rewrite Hweather.
    rewrite bind_lift. cbn [getitem0].
    rewrite bind_lift. cbn [getitem]. now rewrite Hmain.
Qed.

Lemma process_failure_witness :
  _process_weather_data (PDict {[ "cod" := PStr "404" ]}) (Samples.online [0])
    (Samples.fresh_world (Samples.online [0]))
  = (Raised KeyError, Samples.fresh_world (Samples.online [0])).
Proof.
  apply (proj1 (proj2 (process_failure (Samples.online [0])
                         (Samples.fresh_world (Samples.online [0]))))).
  reflexivity.
Defined.

Section Rounding.

Import Lqa Qabs.

Lemma round_half_even_close q :
  (Qabs (inject_Z (PyFloat.round_half_even q) - q) <= 1 # 2)%Q.
Proof.
  unfold PyFloat.round_half_even.
  pose proof (Qfloor_le q) as Hle. pose proof (Qlt_floor q) as Hlt.
  rewrite inject_Z_plus in Hlt. change (inject_Z 1) with 1%Q in Hlt.
  set (f := Qfloor q) in *.
  apply Qabs_Qle_condition.
  destruct (Qcompare (2 * (q - inject_Z f)) 1) eqn:Hc.
  - apply Qeq_alt in Hc.
    destruct (Z.even f); rewrite ?inject_Z_plus;
      change (inject_Z 1) with 1%Q; split; lra.
  - apply Qlt_alt in Hc. split; lra.
  - apply Qgt_alt in Hc. rewrite inject_Z_plus.
    change (inject_Z 1) with 1%Q. split; lra.
Qed.

(** X5.  When the raw temperature is a float that stands for a number, the
    temperature of the processed answer is an integer no more than one half
    away from it. *)
Theorem temperature_nearest raw main x env w d w' :
  raw !! "main" = Some (PDict main) ->
  main !! "temp" = Some (PFloat x) ->
  _process_weather_data (PDict raw) env w = (Returned d, w') ->
  exists n,
    d !! "temperature" = Some (PInt n)
    /\ (Qabs (inject_Z n - float_value x) <= 1 # 2)%Q.
Proof.
  intros Hmain Htemp H. invert_processing H.
  match goal with H : _ (PFloat x) = inr ?t |- _ =>
    exists (match t with PInt n => n | _ => 0%Z end);
    rewrite !lookup_insert_ne, lookup_insert_eq by done;
    destruct x as [s|s| |s m e]; cbn in H; simplify_eq
  end.
  - split; [reflexivity|]. cbn [float_value]. vm_compute. discriminate.
  - split; [reflexivity|]. cbn [float_value].
    pose proof (round_half_even_close (PyFloat.magnitude m e)) as Hclose.
    destruct s; [|exact Hclose].
    rewrite inject_Z_opp.
    apply Qabs_Qle_condition in Hclose. apply Qabs_Qle_condition.
    split; lra.
Qed.

End Rounding.

Lemma temperature_nearest_witness :
  exists n,
    Samples.processed_answer !! "temperature" = Some (PInt n)
    /\ (Qabs.Qabs (inject_Z n - float_value (PyFloat.of_decimal 125 1)) <= 1 # 2)%Q.
Proof.
  apply (temperature_nearest Samples2.answer_dict Samples2.answer_main
           (PyFloat.of_decimal 125 1) (Samples.online [0])
           (Samples.fresh_world (Samples.online [0]))
           Samples.processed_answer
           (tick (Samples.fresh_world (Samples.online [0])))).
  - reflexivity.
  - reflexivity.
  - vm_compute. reflexivity.
Defined.

(** ** Failures of the request *)

Lemma lookup_leaves env w key :
  exists o w1,
    _get_cached_data key env w = (Returned o, w1)
    /\ log w1 = (log w ++ [Call_get_cached_data key])%list
    /\ requests_sent w1 = requests_sent w
    /\ same_attributes (self w1) (self w)
    /\ (cache_of w1 = cache_of w \/ cache_of w1 = delete key (cache_of w))
    /\ (forall hit, o = Some hit ->
          cache_of w1 = cache_of w
          /\ exists t, cache_of w !! key = Some {| data := hit; timestamp := t |}
                       /\ clock env (clock_reads w) - t <= ttl).
Proof.
  destruct (cache_of w !! key) as [[value t]|] eqn:Hk.
  - destruct (Z_lt_le_dec ttl (clock env (clock_reads w) - t)) as [Hage|Hage].
    + rewrite (get_cached_data_stale env w key _ Hk Hage).
      eexists _, _. split; [reflexivity|]. cbn.
      split; [reflexivity|]. split; [reflexivity|]. split; [repeat split|].
      split; [now right|]. discriminate.
    + rewrite (get_cached_data_fresh env w key _ Hk Hage).
      eexists _, _. split; [reflexivity|]. cbn.
      split; [reflexivity|]. split; [reflexivity|]. split; [repeat split|].
      split; [now left|]. intros hit [= <-]. split; [reflexivity|].
      now exists t.
  - rewrite (get_cached_data_absent env w key Hk).
    eexists _, _. split; [reflexivity|]. cbn.
    split; [reflexivity|]. split; [reflexivity|]. split; [repeat split|].
    split; [now left|]. discriminate.
Qed.

Lemma same_city_request a b city :
  same_attributes a b -> city_request a city = city_request b city.
Proof. intros (H1 & H2 & H3 & H4). unfold city_request. congruence. Qed.

Lemma same_coords_request a b lat lon :
  same_attributes a b -> coords_request a lat lon = coords_request b lat lon.
Proof. intros (H1 & H2 & H3 & H4). unfold coords_request. congruence. Qed.

(** A run that made a request is the fetch from the world the lookup left. *)
Lemma fetched_when_requested env w key fetch :
  without_request w (served_or fetch (_get_cached_data key env w) env) = false ->
  served_or fetch (_get_cached_data key env w) env
  = fetch env (snd (_get_cached_data key env w)).
Proof.
  destruct (lookup_leaves env w key) as (o & w1 & -> & Hlog & _).
  cbn [served_or snd]. destruct o as [hit|]; [|reflexivity].
  destruct (dict_truthy hit); [|reflexivity].
  unfold without_request. cbn [snd]. now rewrite (calls_app w w1 _ Hlog).
Qed.

Lemma answer_after_lookup env w key r :
  answer_to r env (snd (_get_cached_data key env w)) = answer_to r env w.
Proof.
  destruct (lookup_leaves env w key) as (o & w1 & -> & _ & Hsent & _).
  unfold answer_to. cbn [snd]. now rewrite Hsent.
Qed.

Lemma request_after_lookup env w key :
  same_attributes (self (snd (_get_cached_data key env w))) (self w).
Proof. destruct (lookup_leaves env w key) as (o & w1 & -> & _ & _ & H & _). exact H. Qed.

(** X6.  When the request of a call fails with an exception of [requests],
    the call raises [WeatherAPIError]: for a city with the message of a time
    out, of a missing connection or of a failed request (in this order of
    precedence, so that a connection time-out counts as a time out), for
    coordinates always with "Failed to get weather data: " and the text of
    the exception. *)
Theorem request_failure_messages env w c text :
  (forall city,
      only_whitespace city = false ->
      answer_to (city_request (self w) city) env w = inl (Requests c text) ->
      without_request w (get_weather_by_city city env w) = false ->
      fst (get_weather_by_city city env w)
      = Raised (WeatherAPIError (city_failure_message c text) None))
  /\ (forall lat lon,
      answer_to (coords_request (self w) lat lon) env w = inl (Requests c text) ->
      without_request w (get_weather_by_coordinates lat lon env w) = false ->
      fst (get_weather_by_coordinates lat lon env w)
      = Raised (WeatherAPIError ("Failed to get weather data: " ++ text) None)).
Proof.
  split.
  - intros city Hcity Hanswer Hreq.
    rewrite (get_weather_by_city_direct env w city (nonblank_truthy _ Hcity))
      in Hreq |- *.
    rewrite (fetched_when_requested _ _ _ _ Hreq).
    unfold city_fetch.
    rewrite (same_city_request _ _ city (request_after_lookup env w _)).
    rewrite answer_after_lookup, Hanswer. cbn [fst city_handler].
    unfold city_failure_message.
    now destruct (isinstance_Timeout c), (isinstance_ConnectionError c).
  - intros lat lon Hanswer Hreq.
    rewrite (get_weather_by_coordinates_direct env w lat lon) in Hreq |- *.
    rewrite (fetched_when_requested _ _ _ _ Hreq).
    unfold coords_fetch.
    rewrite (same_coords_request _ _ lat lon (request_after_lookup env w _)).
    now rewrite answer_after_lookup, Hanswer.
Qed.

Lemma request_failure_messages_witness :
  let env := Samples2.failing (Requests ConnectTimeout "timed out") [0] in
  fst (get_weather_by_city "London" env (Samples.fresh_world env))
  = Raised (WeatherAPIError "Request timed out. Please try again." None)
  /\ fst (get_weather_by_coordinates Scenarios.f51_5 Scenarios.f0_25 env
            (Samples.fresh_world env))
     = Raised (WeatherAPIError "Failed to get weather data: timed out" None).
Proof.
  intros env.
  destruct (request_failure_messages env (Samples.fresh_world env)
              ConnectTimeout "timed out") as [Hcity Hcoords].
  split.
  - apply Hcity; reflexivity.
  - apply Hcoords; vm_compute; reflexivity.
Defined.

(** ** Answers of the provider *)

Lemma process_timestamp raw env w p w' :
  _process_weather_data raw env w = (Returned p, w') ->
  p !! "timestamp" = Some (PDateTime (clock env (clock_reads w))).
Proof.
  intros H. invert_processing H.
  now rewrite !lookup_insert_ne, lookup_insert_eq by done.
Qed.

Lemma stored_facts key p env w w0 l :
  log w = (log w0 ++ l)%list ->
  cache_of (stored key p env w) !! key
  = Some {| data := p; timestamp := clock env (clock_reads w) |}
  /\ calls w0 (stored key p env w) = (l ++ [Call_cache_data key p])%list.
Proof.
  intros Hlog. split.
  - unfold cache_of, stored. cbn. apply lookup_insert_eq.
  - apply calls_app. cbn. rewrite Hlog. now rewrite <- app_assoc.
Qed.

Lemma looked_up_log key env w :
  log (looked_up key env w) = (log w ++ [Call_get_cached_data key])%list.
Proof.
  unfold looked_up.
  destruct (lookup_leaves env w key) as (o & w1 & -> & Hlog & _). exact Hlog.
Qed.

Lemma process_and_store_returns key data env w :
  well_formed data = true ->
  exists p,
    _process_weather_data data env w = (Returned p, tick w)
    /\ process_and_store key data env w = (Returned p, stored key p env (tick w)).
Proof.
  intros Hok. destruct (well_formed_process_returns data env w Hok) as [p Hp].
  exists p. split; [exact Hp|].
  unfold process_and_store, bind at 1. rewrite Hp.
  unfold bind at 1. rewrite cache_data_run. reflexivity.
Qed.

Lemma process_and_store_raises key data env w :
  well_formed data = false ->
  exists e,
    process_and_store key data env w = (Raised e, w) /\ builtin e = true.
Proof.
  intros Hbad. unfold process_and_store, bind at 1.
  destruct (_process_weather_data data env w) as [[p|e] w'] eqn:Hp.
  - apply process_returned_well_formed in Hp. congruence.
  - destruct (process_raises _ _ _ _ _ Hp) as [-> He]. now exists e.
Qed.

Lemma builtin_city_handler e : builtin e = true -> city_handler e = e.
Proof. now destruct e. Qed.

Lemma builtin_coords_handler e : builtin e = true -> coords_handler e = e.
Proof. now destruct e. Qed.

Ltac to_city_fetch Hcity Hreq :=
  rewrite (get_weather_by_city_direct _ _ _ (nonblank_truthy _ Hcity))
    in Hreq |- *;
  rewrite (fetched_when_requested _ _ _ _ Hreq);
  unfold city_fetch;
  rewrite (same_city_request _ _ _ (request_after_lookup _ _ _));
  rewrite answer_after_lookup.

Ltac to_coords_fetch Hreq :=
  rewrite (get_weather_by_coordinates_direct _ _ _ _) in Hreq |- *;
  rewrite (fetched_when_requested _ _ _ _ Hreq);
  unfold coords_fetch;
  rewrite (same_coords_request _ _ _ _ (request_after_lookup _ _ _));
  rewrite answer_after_lookup.

(** X7.  When the answer to the request for a city is a dictionary whose
    "cod" is not the integer 200 (absent or the text "200" included),
    [get_weather_by_city] raises [WeatherAPIError] "API Error: " followed by
    the member "message" of the answer, or by "Unknown error" when there is
    none; beyond the lookup and the request nothing has happened: the clock
    is not read again and nothing is stored. *)
Theorem city_api_error env w city d :
  only_whitespace city = false ->
  answer_to (city_request (self w) city) env w = inr (PDict d) ->
  cod_200 (PDict d) = false ->
  without_request w (get_weather_by_city city env w) = false ->
  get_weather_by_city city env w
  = (Raised (WeatherAPIError "API Error: "
               (Some (default (PStr "Unknown error") (d !! "message")))),
     sent (city_request (self w) city)
       (looked_up (city_cache_key city) env w)).
Proof.
  intros Hcity Hanswer Hcod Hreq. to_city_fetch Hcity Hreq.
  rewrite Hanswer. cbn [get cod_200] in *.
  destruct (d !! "cod"); cbn [default from_option id] in Hcod;
    now rewrite Hcod.
Qed.

Lemma city_api_error_witness :
  let env := Samples2.answering (PDict Samples2.not_found) [0] in
  get_weather_by_city "Atlantis" env (Samples.fresh_world env)
  = (Raised (WeatherAPIError "API Error: " (Some (PStr "city not found"))),
     sent (city_request (self (Samples.fresh_world env)) "Atlantis")
       (looked_up (city_cache_key "Atlantis") env (Samples.fresh_world env))).
Proof.
  intros env.
  apply (city_api_error env (Samples.fresh_world env) "Atlantis"
           Samples2.not_found); reflexivity.
Defined.

(** X8.  An answer that [_process_weather_data] cannot process (and, for a
    city, one that is no dictionary) makes the call end in an exception of
    the language ([KeyError], [TypeError], ...), which neither method turns
    into [WeatherAPIError]; the request has been made and nothing is
    stored. *)
Theorem malformed_answer_escapes env w data :
  well_formed data = false ->
  (forall city,
      only_whitespace city = false ->
      answer_to (city_request (self w) city) env w = inr data ->
      (forall d, data = PDict d -> cod_200 data = true) ->
      without_request w (get_weather_by_city city env w) = false ->
      exists e,
        builtin e = true
        /\ get_weather_by_city city env w
           = (Raised e, sent (city_request (self w) city)
                          (looked_up (city_cache_key city) env w)))
  /\ (forall lat lon,
      answer_to (coords_request (self w) lat lon) env w = inr data ->
      without_request w (get_weather_by_coordinates lat lon env w) = false ->
      exists e,
        builtin e = true
        /\ get_weather_by_coordinates lat lon env w
           = (Raised e, sent (coords_request (self w) lat lon)
                          (looked_up (coords_cache_key lat lon) env w))).
Proof.
  intros Hbad. split.
  - intros city Hcity Hanswer Hcod Hreq. to_city_fetch Hcity Hreq.
    rewrite Hanswer.
    destruct (get data "cod" PNone) as [e|cod] eqn:Hget.
    + exists e. split; [|reflexivity].
      destruct data; cbn in Hget; simplify_eq; reflexivity.
    + destruct data; cbn in Hget; simplify_eq.
      specialize (Hcod _ eq_refl). cbn [cod_200] in Hcod.
      match goal with |- context [eq_int ?c 200] =>
        replace (eq_int c 200) with true
          by (destruct (d !! "cod"); exact (eq_sym Hcod)) end.
      edestruct process_and_store_raises as (e & -> & He); [exact Hbad|].
      exists e. split; [exact He|]. cbn [handled].
      now rewrite builtin_city_handler.
  - intros lat lon Hanswer Hreq. to_coords_fetch Hreq.
    rewrite Hanswer.
    edestruct process_and_store_raises as (e & -> & He); [exact Hbad|].
    exists e. split; [exact He|]. cbn [handled].
    now rewrite builtin_coords_handler.
Qed.

Lemma malformed_answer_escapes_witness :
  let env := Samples2.answering (PDict Samples2.not_found) [0] in
  exists e,
    builtin e = true
    /\ get_weather_by_coordinates Scenarios.f51_5 Scenarios.f0_25 env
         (Samples.fresh_world env)
       = (Raised e,
          sent (coords_request (self (Samples.fresh_world env))
                  Scenarios.f51_5 Scenarios.f0_25)
            (looked_up (coords_cache_key Scenarios.f51_5 Scenarios.f0_25) env
               (Samples.fresh_world env))).
Proof.
  intros env.
  apply (proj2 (malformed_answer_escapes env (Samples.fresh_world env)
                  (PDict Samples2.not_found) eq_refl)).
  - reflexivity.
  - vm_compute. reflexivity.
Defined.

(** X9.  When the answer to the request can be processed (and, for a city,
    has "cod" 200; for coordinates "cod" is not looked at), the call returns
    the processed answer and has stored it under the key of the call.  The
    entry is stamped with the reading of the clock that follows the one the
    answer itself carries under "timestamp", and the calls made are the
    lookup, the request and the store, in this order. *)
Theorem fetch_returns_and_stores env w data :
  well_formed data = true ->
  (forall city,
      only_whitespace city = false ->
      answer_to (city_request (self w) city) env w = inr data ->
      cod_200 data = true ->
      without_request w (get_weather_by_city city env w) = false ->
      let key := city_cache_key city in
      let w1 := looked_up key env w in
      exists p,
        get_weather_by_city city env w
        = (Returned p,
           stored key p env (tick (sent (city_request (self w) city) w1)))
        /\ p !! "timestamp" = Some (PDateTime (clock env (clock_reads w1)))
        /\ cache_of (snd (get_weather_by_city city env w)) !! key
           = Some {| data := p;
                     timestamp := clock env (S (clock_reads w1)) |}
        /\ calls w (snd (get_weather_by_city city env w))
           = [Call_get_cached_data key;
              Call_requests_get (city_request (self w) city);
              Call_cache_data key p])
  /\ (forall lat lon,
      answer_to (coords_request (self w) lat lon) env w = inr data ->
      without_request w (get_weather_by_coordinates lat lon env w) = false ->
      let key := coords_cache_key lat lon in
      let w1 := looked_up key env w in
      exists p,
        get_weather_by_coordinates lat lon env w
        = (Returned p,
           stored key p env (tick (sent (coords_request (self w) lat lon) w1)))
        /\ p !! "timestamp" = Some (PDateTime (clock env (clock_reads w1)))
        /\ cache_of (snd (get_weather_by_coordinates lat lon env w)) !! key
           = Some {| data := p;
                     timestamp := clock env (S (clock_reads w1)) |}
        /\ calls w (snd (get_weather_by_coordinates lat lon env w))
           = [Call_get_cached_data key;
              Call_requests_get (coords_request (self w) lat lon);
              Call_cache_data key p]).
Proof.
  intros Hok. split.
  - intros city Hcity Hanswer Hcod Hreq key w1.
    to_city_fetch Hcity Hreq. rewrite Hanswer.
    destruct data as [| | | | | |d|]; try discriminate.
    cbn [get cod_200] in *.
    match goal with |- context [eq_int ?c 200] =>
      replace (eq_int c 200) with true
        by (destruct (d !! "cod"); exact (eq_sym Hcod)) end.
    edestruct process_and_store_returns as (p & Hp & ->); [exact Hok|].
    exists p. cbn [handled snd]. split; [reflexivity|].
    split; [exact (process_timestamp _ _ _ _ _ Hp)|].
    assert (Hlog : log (tick (sent (city_request (self w) city) w1))
                   = (log w ++ [Call_get_cached_data key;
                                Call_requests_get (city_request (self w) city)])%list).
    { cbn. subst w1. rewrite looked_up_log. now rewrite <- app_assoc. }
    destruct (stored_facts key p env _ w _ Hlog) as [Hentry Hcalls].
    split; [exact Hentry | exact Hcalls].
  - intros lat lon Hanswer Hreq key w1.
    to_coords_fetch Hreq. rewrite Hanswer.
    edestruct process_and_store_returns as (p & Hp & ->); [exact Hok|].
    exists p. cbn [handled snd]. split; [reflexivity|].
    split; [exact (process_timestamp _ _ _ _ _ Hp)|].
    assert (Hlog : log (tick (sent (coords_request (self w) lat lon) w1))
                   = (log w ++ [Call_get_cached_data key;
                                Call_requests_get
                                  (coords_request (self w) lat lon)])%list).
    { cbn. subst w1. rewrite looked_up_log. now rewrite <- app_assoc. }
    destruct (stored_facts key p env _ w _ Hlog) as [Hentry Hcalls].
    split; [exact Hentry | exact Hcalls].
Qed.

Lemma fetch_returns_and_stores_witness :
  let env := Samples2.answering (PDict Samples2.not_found_but_complete) [0; 1] in
  let w := Samples.fresh_world env in
  let key := coords_cache_key Scenarios.f51_5 Scenarios.f0_25 in
  exists p,
    get_weather_by_coordinates Scenarios.f51_5 Scenarios.f0_25 env w
    = (Returned p,
       stored key p env
         (tick (sent (coords_request (self w) Scenarios.f51_5 Scenarios.f0_25)
                  (looked_up key env w))))
    /\ p !! "timestamp"
       = Some (PDateTime (clock env (clock_reads (looked_up key env w))))
    /\ cache_of (snd (get_weather_by_coordinates Scenarios.f51_5
                        Scenarios.f0_25 env w)) !! key
       = Some {| data := p;
                 timestamp := clock env (S (clock_reads (looked_up key env w))) |}
    /\ calls w (snd (get_weather_by_coordinates Scenarios.f51_5
                       Scenarios.f0_25 env w))
       = [Call_get_cached_data key;
          Call_requests_get
            (coords_request (self w) Scenarios.f51_5 Scenarios.f0_25);
          Call_cache_data key p].
Proof.
  intros env w key.
  apply (proj2 (fetch_returns_and_stores env w
                  (PDict Samples2.not_found_but_complete) eq_refl)).
  - reflexivity.
  - vm_compute. reflexivity.
Defined.

(** ** Calls one after the other *)

Lemma process_dom raw env w p w' :
  _process_weather_data raw env w = (Returned p, w') -> dom p = fields.
Proof.
  intros H. invert_processing H.
  unfold fields. rewrite !dom_insert_L, dom_empty_L. cbn. set_solver.
Qed.

Lemma process_truthy raw env w p w' :
  _process_weather_data raw env w = (Returned p, w') -> dict_truthy p = true.
Proof.
  intros H. apply (proj2 (process_weather_data_world raw env w)).
  now rewrite H.
Qed.

Lemma process_and_store_cases key data env w :
  (exists e, process_and_store key data env w = (Raised e, w)
             /\ builtin e = true)
  \/ (exists p, _process_weather_data data env w = (Returned p, tick w)
                /\ process_and_store key data env w
                   = (Returned p, stored key p env (tick w))).
Proof.
  destruct (well_formed data) eqn:Hok.
  - right. now apply process_and_store_returns.
  - left. now apply process_and_store_raises.
Qed.

Lemma looked_up_eq key env w o w1 :
  _get_cached_data key env w = (Returned o, w1) -> looked_up key env w = w1.
Proof. intros H. unfold looked_up. now rewrite H. Qed.

Lemma perform_outcome c env w : call_outcome c env w (perform c env w).
Proof.
  destruct (blank c) eqn:Hblank.
  { destruct c as [city|]; [|discriminate]. cbn in Hblank |- *.
    unfold get_weather_by_city. rewrite (strip_only_whitespace _ Hblank).
    now apply refused. }
  assert (Hdirect : perform c env w
                    = served_or (match c with
                                 | by_city city => city_fetch city
                                 | by_coordinates lat lon => coords_fetch lat lon
                                 end)
                        (_get_cached_data (cache_key c) env w) env).
  { destruct c as [city|lat lon]; cbn [perform cache_key].
    - apply get_weather_by_city_direct. now apply nonblank_truthy.
    - apply get_weather_by_coordinates_direct. }
  rewrite Hdirect.
  destruct (lookup_leaves env w (cache_key c))
    as (o & w1 & Hl & _ & Hsent & Hattr & _ & Hhit).
  pose proof (looked_up_eq _ _ _ _ _ Hl) as Hw1. rewrite Hl.
  cbn [served_or].
  assert (Hfetch : call_outcome c env w
                     (match c with
                      | by_city city => city_fetch city
                      | by_coordinates lat lon => coords_fetch lat lon
                      end env w1)).
  { destruct c as [city|lat lon].
    - unfold city_fetch. rewrite (same_city_request _ _ city Hattr).
      change (city_request (self w) city) with (request_of (self w) (by_city city)).
      subst w1.
      destruct (answer_to _ env _) as [e|data]; [now apply failed|].
      destruct (get data "cod" PNone) as [e|cod]; [now apply failed|].
      destruct (eq_int cod 200); [|now apply failed].
      destruct (process_and_store_cases (city_cache_key city) data env
                  (sent (request_of (self w) (by_city city))
                     (looked_up (cache_key (by_city city)) env w)))
        as [(e & -> & _)|(p & Hp & ->)].
      + now apply failed.
      + exact (fetched_and_stored _ _ _ data p Hblank Hp).
    - unfold coords_fetch. rewrite (same_coords_request _ _ lat lon Hattr).
      change (coords_request (self w) lat lon)
        with (request_of (self w) (by_coordinates lat lon)).
      subst w1.
      destruct (answer_to _ env _) as [e|data]; [now apply failed|].
      destruct (process_and_store_cases (coords_cache_key lat lon) data env
                  (sent (request_of (self w) (by_coordinates lat lon))
                     (looked_up (cache_key (by_coordinates lat lon)) env w)))
        as [(e & -> & _)|(p & Hp & ->)].
      + now apply failed.
      + exact (fetched_and_stored _ _ _ data p Hblank Hp). }
  destruct o as [hit|]; [|exact Hfetch].
  destruct (dict_truthy hit) eqn:Htruthy; [|exact Hfetch].
  destruct (Hhit hit eq_refl) as (Hcache & t & Hentry & Hage).
  rewrite <- Hw1 in Hcache |- *. now apply (served _ _ _ hit t).
Qed.

Lemma served_from_fresh c env w p t :
  blank c = false ->
  cache_of w !! cache_key c = Some {| data := p; timestamp := t |} ->
  dict_truthy p = true ->
  clock env (clock_reads w) - t <= ttl ->
  perform c env w = (Returned p, looked_up (cache_key c) env w)
  /\ cache_of (looked_up (cache_key c) env w) = cache_of w
  /\ requests_sent (looked_up (cache_key c) env w) = requests_sent w.
Proof.
  intros Hblank Hentry Htruthy Hage.
  pose proof (get_cached_data_fresh env w (cache_key c) _ Hentry Hage) as Hl.
  unfold looked_up. split.
  - destruct c as [city|lat lon]; cbn [perform cache_key] in *.
    + rewrite (get_weather_by_city_direct env w city (nonblank_truthy _ Hblank)).
      rewrite Hl. cbn [served_or data snd]. now rewrite Htruthy.
    + rewrite (get_weather_by_coordinates_direct env w lat lon).
      rewrite Hl. cbn [served_or data snd]. now rewrite Htruthy.
  - rewrite Hl. split; reflexivity.
Qed.

Lemma returned_is_cached c env w p w' :
  perform c env w = (Returned p, w') ->
  dict_truthy p = true
  /\ exists t, cache_of w' !! cache_key c = Some {| data := p; timestamp := t |}.
Proof.
  intros H. pose proof (perform_outcome c env w) as Hcase.
  rewrite H in Hcase. inversion Hcase; subst.
  - split; [assumption|]. exists t. congruence.
  - split; [eapply process_truthy; eassumption|].
    eexists. unfold cache_of, stored. cbn. apply lookup_insert_eq.
Qed.

(** X10.  What a call returns is in the cache under the key of the call.  A
    later call with the same key (for a city: the same name up to letter
    case) whose reading of the clock is at most 300 seconds after the time
    stamp of that entry returns the same dictionary, makes no request and
    leaves the cache as it is. *)
Theorem repeated_call_served env w c p w' :
  perform c env w = (Returned p, w') ->
  exists t,
    cache_of w' !! cache_key c = Some {| data := p; timestamp := t |}
    /\ forall c',
         blank c' = false ->
         cache_key c' = cache_key c ->
         clock env (clock_reads w') - t <= ttl ->
         perform c' env w' = (Returned p, looked_up (cache_key c) env w')
         /\ cache_of (looked_up (cache_key c) env w') = cache_of w'
         /\ requests_sent (looked_up (cache_key c) env w') = requests_sent w'.
Proof.
  intros H. destruct (returned_is_cached _ _ _ _ _ H) as (Htruthy & t & Hentry).
  exists t. split; [exact Hentry|].
  intros c' Hblank Hkey Hage. rewrite <- Hkey in *.
  now apply (served_from_fresh c' env w' p t).
Qed.

Lemma repeated_call_served_witness :
  let env := Samples.online [0; 1; 299] in
  exists w',
    get_weather_by_city "London" env (Samples.fresh_world env)
    = (Returned Samples.processed_answer, w')
    /\ fst (get_weather_by_city "LONDON" env w')
       = Returned Samples.processed_answer
    /\ requests_sent (snd (get_weather_by_city "LONDON" env w')) = 1%nat.
Proof.
  intros env.
  assert (H : get_weather_by_city "London" env (Samples.fresh_world env)
              = (Returned Samples.processed_answer,
                 snd (get_weather_by_city "London" env (Samples.fresh_world env))))
    by (vm_compute; reflexivity).
  eexists. split; [exact H|].
  destruct (repeated_call_served env (Samples.fresh_world env)
              (by_city "London") _ _ H) as (t & Hentry & Hnext).
  vm_compute in Hentry. injection Hentry as <-.
  destruct (Hnext (by_city "LONDON")) as (Hrun & _ & Hsent).
  - reflexivity.
  - reflexivity.
  - vm_compute. discriminate.
  - cbn [perform] in Hrun. rewrite Hrun. split; [reflexivity|].
    cbn [snd]. rewrite Hsent. vm_compute. reflexivity.
Defined.

Lemma looked_up_facts key env w :
  requests_sent (looked_up key env w) = requests_sent w
  /\ same_attributes (self (looked_up key env w)) (self w)
  /\ (cache_of (looked_up key env w) = cache_of w
      \/ cache_of (looked_up key env w) = delete key (cache_of w)).
Proof.
  unfold looked_up.
  destruct (lookup_leaves env w key) as (o & w1 & -> & _ & Hsent & Hattr & Hcache & _).
  cbn [snd]. split; [exact Hsent|]. split; [exact Hattr|exact Hcache].
Qed.

Lemma tagged_cache_key c : tagged (cache_key c).
Proof.
  destruct c as [city|lat lon]; eexists; [left|right]; reflexivity.
Qed.

Lemma cache_ok_delete key c : cache_ok c -> cache_ok (delete key c).
Proof.
  intros Hok k entry Hk. apply lookup_delete_Some in Hk as [_ Hk]. eauto.
Qed.

Lemma cache_ok_insert key p t c :
  cache_ok c -> dict_truthy p = true -> dom p = fields -> tagged key ->
  cache_ok (<[key := {| data := p; timestamp := t |}]> c).
Proof.
  intros Hok Htruthy Hdom Htag k entry Hk.
  apply lookup_insert_Some in Hk as [[<- <-]|[_ Hk]]; eauto.
Qed.

Lemma size_delete_le key (c : gmap string cache_entry) :
  (size (delete key c) <= size c)%nat.
Proof. rewrite map_size_delete. destruct (c !! key); cbn; lia. Qed.

Lemma size_insert_le key entry (c : gmap string cache_entry) :
  (size (<[key := entry]> c) <= S (size c))%nat.
Proof. rewrite map_size_insert. destruct (c !! key); cbn; lia. Qed.

Lemma same_attributes_trans a b c :
  same_attributes a b -> same_attributes b c -> same_attributes a c.
Proof. unfold same_attributes. intuition congruence. Qed.

Lemma perform_step c env w :
  cache_ok (cache_of w) ->
  cache_ok (cache_of (snd (perform c env w)))
  /\ same_attributes (self (snd (perform c env w))) (self w)
  /\ (requests_sent w <= requests_sent (snd (perform c env w))
      <= S (requests_sent w))%nat
  /\ (size (cache_of (snd (perform c env w))) + requests_sent w
      <= size (cache_of w) + requests_sent (snd (perform c env w)))%nat.
Proof.
  intros Hok.
  destruct (looked_up_facts (cache_key c) env w) as (Hsent & Hattr & Hcache).
  assert (Hok1 : cache_ok (cache_of (looked_up (cache_key c) env w)))
    by (destruct Hcache as [-> | ->]; [|apply cache_ok_delete]; exact Hok).
  assert (Hsize : (size (cache_of (looked_up (cache_key c) env w))
                   <= size (cache_of w))%nat)
    by (destruct Hcache as [-> | ->]; [lia|apply size_delete_le]).
  destruct (perform_outcome c env w) as [e _|hit t _ _ _ _ Hsame|e _|data p _ Hp];
    cbn [snd].
  - split; [exact Hok|]. split; [repeat split|]. lia.
  - rewrite Hsame, Hsent. split; [exact Hok|]. split; [exact Hattr|]. lia.
  - unfold cache_of in *. cbn. split; [exact Hok1|].
    split; [exact Hattr|]. lia.
  - unfold cache_of in *. cbn. split; [|split; [|split]].
    + apply cache_ok_insert; [exact Hok1| | |apply tagged_cache_key].
      * eapply process_truthy; exact Hp.
      * eapply process_dom; exact Hp.
    + exact Hattr.
    + lia.
    + pose proof (size_insert_le (cache_key c)
                    {| data := p;
                       timestamp := clock env
                         (S (clock_reads (looked_up (cache_key c) env w))) |}
                    (_cache (self (looked_up (cache_key c) env w)))).
      lia.
Qed.

(** X11.  Whatever calls are made one after the other, and whatever the
    provider answers: the attributes of the instance other than the cache
    stay as they are, each call makes at most one request, the cache grows by
    at most one entry for each request made (and by nothing else), and, when
    it was so before, every entry of the cache is under a key with one of the
    two tags and holds a dictionary with the twelve fields of a processed
    answer. *)
Theorem session_invariant env cs : forall w,
  cache_ok (cache_of w) ->
  cache_ok (cache_of (perform_all cs env w))
  /\ same_attributes (self (perform_all cs env w)) (self w)
  /\ (requests_sent w <= requests_sent (perform_all cs env w)
      <= requests_sent w + length cs)%nat
  /\ (size (cache_of (perform_all cs env w)) + requests_sent w
      <= size (cache_of w) + requests_sent (perform_all cs env w))%nat.
Proof.
  induction cs as [|c cs IH]; intros w Hok; cbn [perform_all length].
  - split; [exact Hok|]. split; [repeat split|]. lia.
  - destruct (perform_step c env w Hok) as (Hok' & Hattr & Hsent & Hsize).
    destruct (IH _ Hok') as (Hok'' & Hattr' & Hsent' & Hsize').
    split; [exact Hok''|].
    split; [eapply same_attributes_trans; eassumption|].
    lia.
Qed.

Lemma session_invariant_witness :
  let env := Samples.online [0; 1; 2; 3] in
  let w' := perform_all [by_city "London"; by_city " "; by_city "london"] env
              (Samples.fresh_world env) in
  cache_ok (cache_of w')
  /\ same_attributes (self w') (self (Samples.fresh_world env))
  /\ (requests_sent (Samples.fresh_world env) <= requests_sent w'
      <= requests_sent (Samples.fresh_world env) + 3)%nat
  /\ (size (cache_of w') + requests_sent (Samples.fresh_world env)
      <= size (cache_of (Samples.fresh_world env)) + requests_sent w')%nat.
Proof.
  intros env w'.
  apply (session_invariant env
           [by_city "London"; by_city " "; by_city "london"]
           (Samples.fresh_world env)).
  intros key entry H. vm_compute in H. discriminate.
Defined.

(** ** Keys that coincide *)







(** ** The worker *)

Lemma perform_never_requests c env w e w' :
  perform c env w = (Raised e, w') -> forall cl text, e ≠ Requests cl text.
Proof.
  intros H cl text ->.
  destruct (blank c) eqn:Hblank.
  { destruct c as [city|]; [|discriminate]. cbn in Hblank, H.
    unfold get_weather_by_city in H.
    rewrite (strip_only_whitespace _ Hblank) in H. discriminate. }
  assert (Hshape : run_shape (cache_key c) w
                     (_get_cached_data (cache_key c) env w) (perform c env w)).
  { destruct c as [city|lat lon]; cbn [perform cache_key].
    - apply get_weather_by_city_run. now apply nonblank_truthy.
    - apply get_weather_by_coordinates_run. }
  destruct Hshape as (o & w1 & _ & Hshape). rewrite H in Hshape.
  destruct (truthy o).
  - destruct Hshape as (hit & _ & [=]).
  - destruct Hshape as (req & _ & _ & Hraised). cbn [fst] in Hraised.
    destruct Hraised as (_ & _ & Hnot). now apply (Hnot cl text).
Qed.

(** X13.  The worker emits exactly one signal unless an exception of the
    language ends it.  Without a city (none, or the empty string) and without
    coordinates it reports "No city or coordinates provided" and touches
    nothing.  A city that is not the empty string takes precedence over the
    coordinates, even when it is blank: the worker then reports "City name
    cannot be empty" although it has coordinates.  Every [WeatherAPIError] of
    the call becomes the signal [error_occurred] with the same message, and
    an exception that leaves [run] is neither [WeatherAPIError] nor one of
    [requests]. *)
Theorem worker_signals self env w :
  (WeatherWorker.coordinates self = None ->
   (WeatherWorker.city self = None \/ WeatherWorker.city self = Some "") ->
   WeatherWorker.run self env w
   = (inr (error_occurred "No city or coordinates provided" None), w))
  /\ (forall name,
       WeatherWorker.city self = Some name ->
       name ≠ "" ->
       WeatherWorker.run self env w
       = match get_weather_by_city name env w with
         | (Returned data, w') => (inr (weather_data_ready data), w')
         | (Raised (WeatherAPIError text value), w') =>
             (inr (error_occurred text value), w')
         | (Raised e, w') => (inl e, w')
         end
       /\ (only_whitespace name = true ->
           WeatherWorker.run self env w
           = (inr (error_occurred "City name cannot be empty" None), w)))
  /\ (forall e w',
       WeatherWorker.run self env w = (inl e, w') -> builtin e = true).
Proof.
  split; [|split].
  - intros Hcoords Hcity. unfold WeatherWorker.run, WeatherWorker.fetch.
    rewrite Hcoords. now destruct Hcity as [-> | ->].
  - intros name Hcity Hname. unfold WeatherWorker.run, WeatherWorker.fetch.
    rewrite Hcity. destruct name as [|c name]; [congruence|].
    cbn [PyStr.truthy]. split; [reflexivity|].
    intros Hblank. unfold get_weather_by_city.
    now rewrite (strip_only_whitespace _ Hblank).
  - intros e w' H. unfold WeatherWorker.run in H.
    assert (Hcall : (exists text value,
                        WeatherWorker.fetch self env w
                        = (Raised (WeatherAPIError text value), w))
                    \/ exists c, WeatherWorker.fetch self env w = perform c env w).
    { unfold WeatherWorker.fetch.
      destruct (WeatherWorker.city self) as [name|];
        [destruct (PyStr.truthy name);
           [right; now exists (by_city name)|]|];
        (destruct (WeatherWorker.coordinates self) as [[lat lon]|];
           [right; now exists (by_coordinates lat lon) | left; eauto]). }
    destruct Hcall as [(text & value & Hfetch)|(c & Hfetch)];
      rewrite Hfetch in H; [discriminate|].
    destruct (perform c env w) as [[data|e0] w0] eqn:Hrun; [discriminate|].
    pose proof (perform_never_requests _ _ _ _ _ Hrun) as Hnot.
    destruct e0; try discriminate; injection H as <- _;
      try reflexivity.
    now destruct (Hnot c0 text).
Qed.

Lemma worker_signals_witness :
  let self := {| WeatherWorker.city := Some "  ";
                 WeatherWorker.coordinates :=
                   Some (Scenarios.f51_5, Scenarios.f0_25) |} in
  let env := Samples.online [0] in
  WeatherWorker.run self env (Samples.fresh_world env)
  = (inr (error_occurred "City name cannot be empty" None),
     Samples.fresh_world env).
Proof.
  intros self env.
  destruct (worker_signals self env (Samples.fresh_world env))
    as (_ & Hcity & _).
  destruct (Hcity "  " eq_refl) as [_ Hblank]; [discriminate|].
  apply Hblank. reflexivity.
Defined.

(** ** The location service *)

Lemma split_length sep s :
  length (PyParse.split sep s) = S (count sep s).
Proof.
  induction s as [|c s IH]; [reflexivity|].
  cbn [PyParse.split count]. destruct (Ascii.eqb c sep); cbn; [now rewrite IH|].
  destruct (PyParse.split sep s); [discriminate|exact IH].
Qed.

Lemma split_none sep s : count sep s = 0%nat -> PyParse.split sep s = [s].
Proof.
  induction s as [|c s IH]; [reflexivity|].
  cbn [PyParse.split count]. destruct (Ascii.eqb c sep); [discriminate|].
  intros H. now rewrite (IH H).
Qed.

Lemma split_once sep a b :
  count sep a = 0%nat -> count sep b = 0%nat ->
  PyParse.split sep (a ++ String sep b) = [a; b].
Proof.
  intros Ha Hb. induction a as [|c a IH].
  - simpl. rewrite Ascii.eqb_refl. now rewrite (split_none _ _ Hb).
  - simpl in Ha |- *. destruct (Ascii.eqb c sep); [discriminate|].
    now rewrite (IH Ha).
Qed.

Lemma count_app sep a b :
  count sep (a ++ String sep b) = S (count sep a + count sep b).
Proof.
  induction a as [|c a IH]; simpl.
  - now rewrite Ascii.eqb_refl.
  - rewrite IH. destruct (Ascii.eqb c sep); lia.
Qed.

Lemma unpack_needs_two parts :
  length parts ≠ 2%nat -> unpack_two_floats parts = inl ValueError.
Proof. destruct parts as [|a [|b [|c rest]]]; cbn; congruence. Qed.

(** The first three lines of a [try] block that fetches an answer. *)
Lemma request_steps {B} url params timeout (k : PyVal -> M B) env w :
  (response <- requests_get url params timeout;;
   call_raise_for_status response;;
   data <- lift (json response);;
   k data)%py env w
  = let r := {| url := url; params := params; request_timeout := timeout |} in
    match answer_to r env w with
    | inl e => (Raised e, sent r w)
    | inr data => k data env (sent r w)
    end.
Proof.
  unfold bind, requests_get, emit, call_raise_for_status, answer_to, sent, lift,
    raise, ret.
  cbn. destruct (network env (requests_sent w) _) as [e|resp]; [reflexivity|].
  destruct (raise_for_status resp); [reflexivity|].
  destruct (json resp); reflexivity.
Qed.

Lemma locate_after_request env w :
  LocationService.locate env w
  = match answer_to location_request env w with
    | inl e => (Raised e, sent location_request w)
    | inr data =>
        (location <- lift (get data "loc" (PStr "0,0"));;
         parts <- lift (split_comma location);;
         lat_lon <- lift (unpack_two_floats parts);;
         city <- lift (get data "city" (PStr "Unknown"));;
         ret (fst lat_lon, snd lat_lon, city))%py env (sent location_request w)
    end.
Proof.
  unfold LocationService.locate. unfold bind at 1, get_env.
  now rewrite request_steps.
Qed.

Ltac locate_with Hanswer :=
  unfold LocationService.get_current_location;
  rewrite locate_after_request, Hanswer;
  rewrite ?bind_lift; cbn [get].

(** X14.  When the answer of the location service is a dictionary, its
    member "loc", two numbers with one comma between them, gives latitude and
    longitude, each read as [float] reads it; without "loc" the location is
    (0.0, 0.0).  The city is the member "city", whatever it is, or "Unknown".
    One request has been made. *)
Theorem location_found env w d :
  answer_to location_request env w = inr (PDict d) ->
  (d !! "loc" = None ->
   LocationService.get_current_location env w
   = (Located zero zero (default (PStr "Unknown") (d !! "city")),
      sent location_request w))
  /\ (forall a b lat lon,
       d !! "loc" = Some (PStr (a ++ String "," b)) ->
       count "," a = 0%nat -> count "," b = 0%nat ->
       PyParse.float_of_string a = Some lat ->
       PyParse.float_of_string b = Some lon ->
       LocationService.get_current_location env w
       = (Located lat lon (default (PStr "Unknown") (d !! "city")),
          sent location_request w)).
Proof.
  intros Hanswer. split.
  - intros Hloc. locate_with Hanswer. rewrite Hloc.
    rewrite bind_lift. cbn [split_comma].
    rewrite bind_lift.
    change (unpack_two_floats (PyParse.split "," "0,0"))
      with (@inr Exn _ (zero, zero)).
    cbv iota. rewrite bind_lift. reflexivity.
  - intros a b lat lon Hloc Ha Hb Hlat Hlon. locate_with Hanswer. rewrite Hloc.
    rewrite bind_lift. cbn [split_comma].
    rewrite bind_lift, (split_once _ _ _ Ha Hb). cbn [unpack_two_floats].
    rewrite Hlat, Hlon. rewrite bind_lift. reflexivity.
Qed.

Lemma location_found_witness :
  let d : Dict := {[ "loc" := PStr "51.5,0.25"; "city" := PStr "London" ]} in
  let env := Samples2.answering (PDict d) [0] in
  LocationService.get_current_location env (Samples.fresh_world env)
  = (Located Scenarios.f51_5 Scenarios.f0_25 (PStr "London"),
     sent location_request (Samples.fresh_world env)).
Proof.
  intros d env.
  apply (proj2 (location_found env (Samples.fresh_world env) d eq_refl)
           "51.5" "0.25" Scenarios.f51_5 Scenarios.f0_25);
    vm_compute; reflexivity.
Defined.

(** X15.  The failures of the location service.  An exception of
    [requests] becomes [LocationServiceError] "Failed to get location: "
    with its text.  A "loc" that is a string but not two numbers with one
    comma between them (another number of commas, or a part that [float]
    does not read) becomes [LocationServiceError] "Invalid location data: ".
    An answer that is no dictionary, or a "loc" that is no string, raises
    [AttributeError], which no clause catches.  In each case one request has
    been made. *)
Theorem location_failures env w :
  (forall c text,
      answer_to location_request env w = inl (Requests c text) ->
      LocationService.get_current_location env w
      = (LocationServiceError ("Failed to get location: " ++ text) None,
         sent location_request w))
  /\ (forall d s,
      answer_to location_request env w = inr (PDict d) ->
      d !! "loc" = Some (PStr s) ->
      count "," s ≠ 1%nat ->
      LocationService.get_current_location env w
      = (LocationServiceError "Invalid location data: " (Some ValueError),
         sent location_request w))
  /\ (forall d a b,
      answer_to location_request env w = inr (PDict d) ->
      d !! "loc" = Some (PStr (a ++ String "," b)) ->
      PyParse.float_of_string a = None \/ PyParse.float_of_string b = None ->
      LocationService.get_current_location env w
      = (LocationServiceError "Invalid location data: " (Some ValueError),
         sent location_request w))
  /\ (forall data,
      answer_to location_request env w = inr data ->
      match data with
      | PDict d => exists v, d !! "loc" = Some v /\ is_str (Some v) = false
      | _ => True
      end ->
      LocationService.get_current_location env w
      = (Propagated AttributeError, sent location_request w)).
Proof.
  assert (Hcount : forall d s,
             answer_to location_request env w = inr (PDict d) ->
             d !! "loc" = Some (PStr s) ->
             count "," s ≠ 1%nat ->
             LocationService.get_current_location env w
             = (LocationServiceError "Invalid location data: " (Some ValueError),
                sent location_request w)).
  { intros d s Hanswer Hloc Hcommas. locate_with Hanswer. rewrite Hloc.
    rewrite bind_lift. cbn [split_comma]. rewrite bind_lift.
    rewrite unpack_needs_two; [reflexivity|].
    rewrite split_length. lia. }
  split; [|split; [exact Hcount|split]].
  - intros c text Hanswer. unfold LocationService.get_current_location.
    now rewrite locate_after_request, Hanswer.
  - intros d a b Hanswer Hloc Hpart.
    destruct (Nat.eq_dec (count "," (a ++ String "," b)) 1%nat) as [Hone|Hmore];
      [|now apply (Hcount d _ Hanswer Hloc)].
    rewrite count_app in Hone.
    assert (Ha : count "," a = 0%nat) by lia.
    assert (Hb : count "," b = 0%nat) by lia.
    locate_with Hanswer. rewrite Hloc.
    rewrite bind_lift. cbn [split_comma].
    rewrite bind_lift, (split_once _ _ _ Ha Hb). cbn [unpack_two_floats].
    destruct Hpart as [-> | ->]; [reflexivity|].
    now destruct (PyParse.float_of_string a).
  - intros data Hanswer Hdata. locate_with Hanswer.
    destruct data as [| | | | | |d|]; try reflexivity.
    destruct Hdata as (v & Hloc & Hstr). cbn [get]. rewrite Hloc.
    rewrite bind_lift.
    destruct v; try discriminate; reflexivity.
Qed.

Lemma location_failures_witness :
  let d : Dict := {[ "loc" := PStr "51.5;0.25" ]} in
  let env := Samples2.answering (PDict d) [0] in
  LocationService.get_current_location env (Samples.fresh_world env)
  = (LocationServiceError "Invalid location data: " (Some ValueError),
     sent location_request (Samples.fresh_world env)).
Proof.
  intros d env.
  apply (proj1 (proj2 (location_failures env (Samples.fresh_world env)))
           d "51.5;0.25").
  - reflexivity.
  - reflexivity.
  - vm_compute. discriminate.
Defined.

(** ** The sample answer, processed *)

Lemma processed_fields_witness :
  let env := Samples.online [0] in
  dom Samples.processed_answer = fields
  /\ Samples.processed_answer !! "timestamp"
     = Some (PDateTime (clock env (clock_reads (Samples.fresh_world env))))
  /\ (exists n, Samples.processed_answer !! "temperature" = Some (PInt n))
  /\ (exists s, Samples.processed_answer !! "description" = Some (PStr s))
  /\ tick (Samples.fresh_world env) = tick (Samples.fresh_world env).
Proof.
  intros env.
  apply (processed_fields Samples.answer env (Samples.fresh_world env)
           Samples.processed_answer (tick (Samples.fresh_world env))).
  vm_compute. reflexivity.
Defined.

Lemma processed_defaults_witness :
  let env := Samples.online [0] in
  let raw := Samples2.answer_dict in
  let d := Samples.processed_answer in
  d !! "city" = Some (default (PStr "Unknown") (raw !! "name"))
  /\ d !! "country"
     = Some (default (PStr "") (member (raw !! "sys") "country"))
  /\ d !! "pressure"
     = Some (default (PInt 0) (member (raw !! "main") "pressure"))
  /\ d !! "wind_speed"
     = Some (default (PInt 0) (member (raw !! "wind") "speed"))
  /\ d !! "wind_direction"
     = Some (default (PInt 0) (member (raw !! "wind") "deg"))
  /\ d !! "humidity" = member (raw !! "main") "humidity".
Proof.
  intros env raw d.
  apply (processed_defaults raw env (Samples.fresh_world env) d
           (tick (Samples.fresh_world env))).
  vm_compute. reflexivity.
Defined.
